(** * excel-interviewer: session lifecycle, evaluator, catalog and stores

    A shallow embedding of the Python sources under [app/]:
    [core/models.py], [core/agent.py], [utils/helpers.py],
    [database/redis_db.py], [database/postgres_db.py] and [main.py].

    Conventions of the embedding.
    - A decoded JSON document is a [json] tree.  [json.dumps] followed by
      [json.loads] is the identity on such trees, so a serialised string is
      represented by the tree it encodes.
    - Python exceptions are values of [exn]; a call that may raise returns a
      [result].
    - The session dict of [redis_db.py] has a fixed set of keys and is a
      record; the Redis keyspace is a [gmap]; the PostgreSQL table is a list
      of rows under its primary-key constraint.
    - A clock reading ([datetime.now()]) is an input of the step that takes
      it, represented by its ISO-8601 text.
    - A Python float is the rational it denotes, or an infinity, or NaN;
      rounding of float arithmetic is not represented. *)

From Stdlib Require Import ZArith QArith Lia Ascii.
From stdpp Require Import base option list strings gmap.

Local Open Scope string_scope.
Local Open Scope list_scope.
Local Open Scope Z_scope.

(** ** Python values *)

Module Py.

(** The exception classes the sources raise, catch or let through. *)
Inductive exn : Set :=
| FileNotFoundError
| JSONDecodeError
| TypeError
| ValueError
| ValidationError      (* pydantic_core.ValidationError, a ValueError *)
| KeyError
| IndexError
| AttributeError.

Inductive result (A : Type) : Type :=
| Ok (a : A)
| Raise (e : exn).
Global Arguments Ok {A} a.
Global Arguments Raise {A} e.

Definition bind {A B} (r : result A) (k : A -> result B) : result B :=
  match r with
  | Ok a => k a
  | Raise e => Raise e
  end.

(** A comprehension [[f(x) for x in l]]: left to right, stopping at the
    first exception. *)
Fixpoint traverse {A B} (f : A -> result B) (l : list A) : result (list B) :=
  match l with
  | [] => Ok []
  | x :: xs =>
      bind (f x) (fun y => bind (traverse f xs) (fun ys => Ok (y :: ys)))
  end.

Inductive pyfloat : Set :=
| FNaN
| FInf (negative : bool)
| FFin (q : Q).

#[warnings="-register-all"]
Inductive json : Type :=
| JNull
| JBool (b : bool)
| JInt (z : Z)
| JFloat (f : pyfloat)
| JStr (s : string)
| JList (l : list json)
| JDict (d : list (string * json)).

(** [d.get(k)] on a dict kept in insertion order. *)
Fixpoint dict_get {V} (k : string) (d : list (string * V)) : option V :=
  match d with
  | [] => None
  | (k', v) :: d' => if String.eqb k k' then Some v else dict_get k d'
  end.

(** [l[i]]: a negative index counts from the end, out of range raises. *)
Definition getitem {A} (l : list A) (i : Z) : result A :=
  let n := Z.of_nat (length l) in
  let j := if i <? 0 then i + n else i in
  if (j <? 0) || (n <=? j) then Raise IndexError
  else match nth_error l (Z.to_nat j) with
       | Some x => Ok x
       | None => Raise IndexError
       end.

Definition float_of_int (z : Z) : pyfloat := FFin (inject_Z z).

(** IEEE equality of floats: NaN differs from everything. *)
Definition float_eq (x y : pyfloat) : bool :=
  match x, y with
  | FFin p, FFin q => Qeq_bool p q
  | FInf a, FInf b => Bool.eqb a b
  | _, _ => false
  end.

Definition is_nan (x : pyfloat) : bool :=
  match x with FNaN => true | _ => false end.

(** Python [==] on decoded JSON values: numbers compare across [bool],
    [int] and [float]; lists compare position by position; dicts compare
    key by key whatever the order. *)
Fixpoint py_eq (a b : json) {struct a} : bool :=
  match a, b with
  | JNull, JNull => true
  | JBool x, JBool y => Bool.eqb x y
  | JBool x, JInt z => Z.b2z x =? z
  | JInt z, JBool x => z =? Z.b2z x
  | JInt x, JInt y => x =? y
  | JBool x, JFloat f => float_eq (float_of_int (Z.b2z x)) f
  | JFloat f, JBool x => float_eq f (float_of_int (Z.b2z x))
  | JInt x, JFloat f => float_eq (float_of_int x) f
  | JFloat f, JInt x => float_eq f (float_of_int x)
  | JFloat f, JFloat g => float_eq f g
  | JStr s, JStr t => String.eqb s t
  | JList l1, JList l2 =>
      (fix go (l1 l2 : list json) : bool :=
         match l1, l2 with
         | [], [] => true
         | x :: xs, y :: ys => py_eq x y && go xs ys
         | _, _ => false
         end) l1 l2
  | JDict d1, JDict d2 =>
      (length d1 =? length d2)%nat &&
      (fix go (d : list (string * json)) : bool :=
         match d with
         | [] => true
         | (k, v) :: d' =>
             match dict_get k d2 with
             | Some w => py_eq v w
             | None => false
             end && go d'
         end) d1
  | _, _ => false
  end.

Fixpoint chars (s : string) : list json :=
  match s with
  | EmptyString => []
  | String c s' => JStr (String c EmptyString) :: chars s'
  end.

(** [for q_data in questions_data]: a list yields its items, a dict its
    keys, a string its characters; anything else is not iterable. *)
Definition iterate (v : json) : result (list json) :=
  match v with
  | JList l => Ok l
  | JDict d => Ok (map (fun kv => JStr (fst kv)) d)
  | JStr s => Ok (chars s)
  | _ => Raise TypeError
  end.

End Py.
Import Py.

#[global] Instance result_ret : MRet result := fun _ a => Ok a.
#[global] Instance result_bind : MBind result := fun _ _ k r => bind r k.

(** ** pandas: the part of [DataFrame] the sources call

    [pd.DataFrame(dict of lists)], [DataFrame.equals] and
    [DataFrame.to_dict('list')], after the documented behaviour of pandas:
    a column has one dtype, inferred from all its cells; [equals] wants the
    same labels in the same order, the same dtype in corresponding columns
    and equal cells, missing values in the same place counting as equal.
    Limits of this rendering: integers have any size (overflow of
    [int64] is not represented); an int widened into a float column keeps
    its exact value (the rounding of integers above 2^53 is not
    represented); a column without cells is given the object dtype, which
    depends on the pandas version.  No statement below depends on these
    cases. *)

Module Pandas.

(** [Dict[str, List[Any]]]: column name to cell values, in key order. *)
Definition TableData := list (string * list json).

Inductive Column : Type :=
| ColBool (cells : list bool)
| ColInt64 (cells : list Z)
| ColFloat64 (cells : list pyfloat)
| ColObject (cells : list json).

Record DataFrame := mkDataFrame {
  index : list Z;                       (* row labels *)
  columns : list (string * Column)      (* column labels and data *)
}.

Inductive dtype : Set := dt_bool | dt_int64 | dt_float64 | dt_object.

Definition dtype_of (c : Column) : dtype :=
match c with
| ColBool _ => dt_bool
| ColInt64 _ => dt_int64
| ColFloat64 _ => dt_float64
| ColObject _ => dt_object
end.

Definition as_bool (v : json) : option bool :=
  match v with JBool b => Some b | _ => None end.
Definition as_int (v : json) : option Z :=
  match v with JInt z => Some z | _ => None end.
(** In a numeric column an int is widened and [None] becomes NaN. *)
Definition as_float (v : json) : option pyfloat :=
  match v with
  | JInt z => Some (float_of_int z)
  | JFloat f => Some f
  | JNull => Some FNaN
  | _ => None
  end.
Definition is_number (v : json) : bool :=
  match v with JInt _ | JFloat _ => true | _ => false end.

(** dtype inference for one column of a dict of lists. *)
Definition infer_column (l : list json) : Column :=
  match l with
  | [] => ColObject []
  | _ =>
      match mapM as_bool l with
      | Some bs => ColBool bs
      | None =>
          match mapM as_int l with
          | Some zs => ColInt64 zs
          | None =>
              match mapM as_float l with
              | Some fs => if existsb is_number l then ColFloat64 fs else ColObject l
              | None => ColObject l
              end
          end
      end
  end.

Definition same_lengths (data : TableData) : bool :=
  match data with
  | [] => true
  | (_, l) :: rest => forallb (fun kv => (length (snd kv) =? length l)%nat) rest
  end.

Definition range_index (n : nat) : list Z := map Z.of_nat (seq 0 n).

(** [pd.DataFrame(data)] for a dict of lists: columns of different
    lengths raise [ValueError]. *)
Definition DataFrame_new (data : TableData) : result DataFrame :=
  if same_lengths data then
    let n := match data with [] => O | (_, l) :: _ => length l end in
    Ok (mkDataFrame (range_index n)
                    (map (fun kv => (fst kv, infer_column (snd kv))) data))
  else Raise ValueError.

Definition column_to_list (c : Column) : list json :=
  match c with
  | ColBool l => map JBool l
  | ColInt64 l => map JInt l
  | ColFloat64 l => map JFloat l
  | ColObject l => l
  end.

(** [df.to_dict('list')] *)
Definition to_dict_list (df : DataFrame) : TableData :=
  map (fun kc => (fst kc, column_to_list (snd kc))) (columns df).

Fixpoint all2 {A} (f : A -> A -> bool) (l1 l2 : list A) : bool :=
  match l1, l2 with
  | [], [] => true
  | x :: xs, y :: ys => f x y && all2 f xs ys
  | _, _ => false
  end.

Definition float_equiv (x y : pyfloat) : bool :=
  (is_nan x && is_nan y) || float_eq x y.

Definition is_na (v : json) : bool :=
  match v with
  | JNull => true
  | JFloat FNaN => true
  | _ => false
  end.

(** Cells of an object column: Python [==], or both missing. *)
Definition object_equiv (x y : json) : bool :=
  py_eq x y || (is_na x && is_na y).

Definition column_equals (c1 c2 : Column) : bool :=
  match c1, c2 with
  | ColBool a, ColBool b => all2 Bool.eqb a b
  | ColInt64 a, ColInt64 b => all2 Z.eqb a b
  | ColFloat64 a, ColFloat64 b => all2 float_equiv a b
  | ColObject a, ColObject b => all2 object_equiv a b
  | _, _ => false
  end.

(** [self.equals(other)] *)
Definition equals (self other : DataFrame) : bool :=
  all2 Z.eqb (index self) (index other)
  && all2 String.eqb (map fst (columns self)) (map fst (columns other))
  && all2 column_equals (map snd (columns self)) (map snd (columns other)).

End Pandas.
Import Pandas.

(** ** core/models.py *)

Module Models.

Record Question := mkQuestion {
  id : string;
  topic : string;
  difficulty : string;
  task_description : string;
  starting_data : TableData;
  solution_data : TableData;
  evaluation_criteria : string
}.

Record Evaluation := mkEvaluation {
  score : Z;
  is_correct : bool;
  feedback : string
}.

(** *** Field validation (pydantic, lax mode) *)

(** A [str] field takes a string and nothing else. *)
Definition validate_str (v : json) : option string :=
  match v with JStr s => Some s | _ => None end.

Definition validate_list_any (v : json) : option (list json) :=
  match v with JList l => Some l | _ => None end.

Fixpoint validate_columns (d : list (string * json)) : option TableData :=
  match d with
  | [] => Some []
  | (k, v) :: d' =>
      match validate_list_any v, validate_columns d' with
      | Some l, Some t => Some ((k, l) :: t)
      | _, _ => None
      end
  end.

(** A [Dict[str, List[Any]]] field takes a mapping whose values are lists. *)
Definition validate_table (v : json) : option TableData :=
  match v with JDict d => validate_columns d | _ => None end.

Definition is_digit (c : ascii) : bool :=
  let n := nat_of_ascii c in (48 <=? n)%nat && (n <=? 57)%nat.

Definition is_space (c : ascii) : bool :=
  let n := nat_of_ascii c in
  (n =? 32)%nat || ((9 <=? n)%nat && (n <=? 13)%nat).

Fixpoint trim_start (s : string) : string :=
  match s with
  | EmptyString => EmptyString
  | String c s' => if is_space c then trim_start s' else s
  end.

Fixpoint trim_end (s : string) : string :=
  match s with
  | EmptyString => EmptyString
  | String c s' =>
      match trim_end s' with
      | EmptyString => if is_space c then EmptyString else String c EmptyString
      | t => String c t
      end
  end.

Fixpoint all_zeros (s : string) : bool :=
  match s with
  | EmptyString => true
  | String c s' => Ascii.eqb c "0" && all_zeros s'
  end.

(** Digits, with single underscores between them, up to the end or up to
    a point that only zeros follow. *)
Fixpoint numeral_value (s : string) (acc : Z) : option Z :=
  match s with
  | EmptyString => None
  | String c s' =>
      if is_digit c then
        let acc' := 10 * acc + (Z.of_nat (nat_of_ascii c) - 48) in
        match s' with
        | EmptyString => Some acc'
        | String c' s'' =>
            if Ascii.eqb c' "_" then numeral_value s'' acc'
            else if Ascii.eqb c' "." then
              match s'' with
              | EmptyString => None
              | _ => if all_zeros s'' then Some acc' else None
              end
            else numeral_value s' acc'
        end
      else None
  end.

(** The numeral strings an [int] field takes: blanks around the numeral
    are dropped, a sign may lead, single underscores may separate digits
    and a fractional part of zeros is dropped (["3"], [" 3 "], ["0_3"],
    ["3.0"]).  Other spellings count as invalid here; the statements
    below that depend on a failed validation are made for scores that are
    not strings. *)
Definition int_of_str (s : string) : option Z :=
  match trim_end (trim_start s) with
  | EmptyString => None
  | String c t as numeral =>
      if Ascii.eqb c "-" then Z.opp <$> numeral_value t 0
      else if Ascii.eqb c "+" then numeral_value t 0
      else numeral_value numeral 0
  end.

Definition int_of_float (f : pyfloat) : option Z :=
  match f with
  | FFin q =>
      if (Qnum q mod Zpos (Qden q) =? 0) then Some (Qnum q / Zpos (Qden q))
      else None
  | _ => None
  end.

(** An [int] field in lax mode: an int, a bool, a float without
    fractional part, or a numeral string. *)
Definition validate_int (v : json) : option Z :=
  match v with
  | JInt z => Some z
  | JBool b => Some (Z.b2z b)
  | JFloat f => int_of_float f
  | JStr s => int_of_str s
  | _ => None
  end.

Definition lower_ascii (c : ascii) : ascii :=
  let n := nat_of_ascii c in
  if (65 <=? n)%nat && (n <=? 90)%nat then ascii_of_nat (n + 32) else c.

Fixpoint lower (s : string) : string :=
  match s with
  | EmptyString => EmptyString
  | String c s' => String (lower_ascii c) (lower s')
  end.

Definition str_in (s : string) (l : list string) : bool :=
  existsb (String.eqb s) l.

Definition bool_of_str (s : string) : option bool :=
  let t := lower s in
  if str_in t ["1"; "on"; "t"; "true"; "y"; "yes"] then Some true
  else if str_in t ["0"; "off"; "f"; "false"; "n"; "no"] then Some false
  else None.

(** A [bool] field in lax mode: a bool, the numbers 0 and 1, or one of
    the accepted words. *)
Definition validate_bool (v : json) : option bool :=
  match v with
  | JBool b => Some b
  | JInt z => if z =? 0 then Some false else if z =? 1 then Some true else None
  | JFloat f =>
      if float_eq f (float_of_int 0) then Some false
      else if float_eq f (float_of_int 1) then Some true else None
  | JStr s => bool_of_str s
  | _ => None
  end.

(** *** Question *)

(** Validation of the keyword arguments of [Question(...)]: every field
    is required ([Field(...)] or no default); unknown keys are ignored. *)
Definition Question_validate (kwargs : list (string * json)) : result Question :=
  match dict_get "id" kwargs ≫= validate_str,
        dict_get "topic" kwargs ≫= validate_str,
        dict_get "difficulty" kwargs ≫= validate_str,
        dict_get "task_description" kwargs ≫= validate_str,
        dict_get "starting_data" kwargs ≫= validate_table,
        dict_get "solution_data" kwargs ≫= validate_table,
        dict_get "evaluation_criteria" kwargs ≫= validate_str
  with
  | Some i, Some t, Some d, Some td, Some sd, Some sol, Some ec =>
      Ok (mkQuestion i t d td sd sol ec)
  | _, _, _, _, _, _, _ => Raise ValidationError
  end.

(** [Question] applied to an unpacked [q]: unpacking wants a mapping. *)
Definition Question_new (q : json) : result Question :=
  match q with
  | JDict kwargs => Question_validate kwargs
  | _ => Raise TypeError
  end.

Definition dump_table (t : TableData) : json :=
  JDict (map (fun kv => (fst kv, JList (snd kv))) t).

(** [Question.model_dump()] *)
Definition Question_model_dump (q : Question) : json :=
  JDict [ ("id", JStr (id q));
          ("topic", JStr (topic q));
          ("difficulty", JStr (difficulty q));
          ("task_description", JStr (task_description q));
          ("starting_data", dump_table (starting_data q));
          ("solution_data", dump_table (solution_data q));
          ("evaluation_criteria", JStr (evaluation_criteria q)) ].

(** *** Evaluation *)

(** [score: int = Field(..., ge=1, le=5)] *)
Definition validate_score (v : json) : option Z :=
  z ← validate_int v;
  if (1 <=? z) && (z <=? 5) then Some z else None.

Definition Evaluation_validate (kwargs : list (string * json)) : result Evaluation :=
  match dict_get "score" kwargs ≫= validate_score,
        dict_get "is_correct" kwargs ≫= validate_bool,
        dict_get "feedback" kwargs ≫= validate_str
  with
  | Some s, Some c, Some f => Ok (mkEvaluation s c f)
  | _, _, _ => Raise ValidationError
  end.

(** [Evaluation] applied to an unpacked [e]. *)
Definition Evaluation_new (e : json) : result Evaluation :=
  match e with
  | JDict kwargs => Evaluation_validate kwargs
  | _ => Raise TypeError
  end.

(** [Evaluation.model_dump()] *)
Definition Evaluation_model_dump (e : Evaluation) : list (string * json) :=
  [ ("score", JInt (score e));
    ("is_correct", JBool (is_correct e));
    ("feedback", JStr (feedback e)) ].

(** [Question.get_starting_df] and [Question.get_solution_df] *)
Definition get_starting_df (self : Question) : result DataFrame :=
  DataFrame_new (starting_data self).

Definition get_solution_df (self : Question) : result DataFrame :=
  DataFrame_new (solution_data self).

End Models.
Import Models.

(** ** core/agent.py *)

Module Agent.

(** The input handed to the evaluation chain. *)
Record ChainInput := mkChainInput {
  ci_task_description : string;
  ci_evaluation_criteria : string;
  ci_candidate_formula : string
}.

(** [prompt | llm | parser]: one invocation either raises (model
    unreachable, timeout, unparseable output) or returns the decoded
    JSON value of the model's answer. *)
Definition Chain := ChainInput -> result json.

(** [self.chain] is [None] when [ChatOllama] could not be constructed. *)
Record ExcelAgent := mkExcelAgent {
  chain : option Chain
}.

(** [v[key]] with a string key. *)
Definition subscript (v : json) (key : string) : result json :=
  match v with
  | JDict d =>
      match dict_get key d with
      | Some x => Ok x
      | None => Raise KeyError
      end
  | _ => Raise TypeError
  end.

(** The default evaluation of the [except] branch. *)
Definition error_evaluation : Evaluation :=
  mkEvaluation 1 false
    "An error occurred while evaluating the response. Please ensure the formula is valid or try again.".

(** [chain_input], without the parser's constant format instructions. *)
Definition chain_input_of (question : Question) (candidate_formula : string)
  : ChainInput :=
  mkChainInput (task_description question)
               (evaluation_criteria question)
               candidate_formula.

(** The body of the [try] block. *)
Definition invoke_chain (c : Chain) (question : Question)
    (candidate_formula : string) : result Evaluation :=
  let chain_input := chain_input_of question candidate_formula in
  evaluation_result ← c chain_input;
  _ ← subscript evaluation_result "score";      (* read by the log line *)
  Evaluation_new evaluation_result.

(** [ExcelAgent.evaluate_formula]; Python's [None] is [None] here. *)
Definition evaluate_formula (self : ExcelAgent) (question : Question)
    (candidate_formula : string) : option Evaluation :=
  match chain self with
  | None => None
  | Some c =>
      match invoke_chain c question candidate_formula with
      | Ok e => Some e
      | Raise _ => Some error_evaluation
      end
  end.

End Agent.
Import Agent.

(** ** utils/helpers.py *)

Module Helpers.

(** What [open(QUESTIONS_FILE)] and [json.load] meet. *)
Inductive QuestionsFile : Type :=
| FileMissing                    (* open raises FileNotFoundError *)
| InvalidJSON                    (* json.load raises JSONDecodeError *)
| Document (questions_data : json).

Definition read_questions_file (f : QuestionsFile) : result json :=
  match f with
  | FileMissing => Raise FileNotFoundError
  | InvalidJSON => Raise JSONDecodeError
  | Document d => Ok d
  end.

(** [load_questions()], as a function of the file it reads. *)
Definition load_questions (f : QuestionsFile) : result (list Question) :=
  let attempt :=
    questions_data ← read_questions_file f;
    items ← iterate questions_data;
    traverse Question_new items in
  match attempt with
  | Raise FileNotFoundError | Raise JSONDecodeError | Raise TypeError => Ok []
  | r => r
  end.

End Helpers.
Import Helpers.

(** ** database/redis_db.py *)

Module RedisDb.

(** One entry of [state["user_answers"]] (a plain dict, main.py). *)
Record UserAnswer := mkUserAnswer {
  question_id : string;
  submitted_formula : string;
  final_dataframe : TableData;
  is_state_correct : bool
}.

(** One entry of [state["evaluations"]]: the plain dict that
    [model_dump()] returned (as main.py appends it), or an [Evaluation]
    model (as [_deserialize_data] re-hydrates it). *)
Inductive EvaluationEntry : Type :=
| PlainDict (e : Evaluation)
| Model (e : Evaluation).

Definition entry_fields (x : EvaluationEntry) : Evaluation :=
  match x with PlainDict e => e | Model e => e end.

(** The session dict.  [start_time] and [end_time] are keys that are
    absent until they are set. *)
Record SessionState := mkSessionState {
  session_id : string;
  current_question_index : Z;
  questions : list Question;
  user_answers : list UserAnswer;
  evaluations : list EvaluationEntry;
  interview_started : bool;
  interview_finished : bool;
  start_time : option string;
  end_time : option string
}.

(** *** JSON encoding *)

(** [json.dumps] meets an object that is not a JSON type: with
    [default=default_serializer] a pydantic model is replaced by its
    [model_dump()], without it [TypeError] is raised. *)
Inductive Encoder : Set := WithDefault | NoDefault.

Definition encode_model (enc : Encoder) (dumped : json) : result json :=
  match enc with
  | WithDefault => Ok dumped
  | NoDefault => Raise TypeError
  end.

Definition encode_entry (enc : Encoder) (x : EvaluationEntry) : result json :=
  match x with
  | PlainDict e => Ok (JDict (Evaluation_model_dump e))
  | Model e => encode_model enc (JDict (Evaluation_model_dump e))
  end.

Definition encode_answer (a : UserAnswer) : json :=
  JDict [ ("question_id", JStr (question_id a));
          ("submitted_formula", JStr (submitted_formula a));
          ("final_dataframe", dump_table (final_dataframe a));
          ("is_state_correct", JBool (is_state_correct a)) ].

Definition encode_optional (key : string) (v : option string)
  : list (string * json) :=
  match v with
  | Some s => [(key, JStr s)]
  | None => []
  end.

(** [json.dumps(state, default=...)] up to the text: the document. *)
Definition json_dumps (enc : Encoder) (data : SessionState) : result json :=
  qs ← traverse (fun q => encode_model enc (Question_model_dump q)) (questions data);
  evs ← traverse (encode_entry enc) (evaluations data);
  Ok (JDict ([ ("session_id", JStr (session_id data));
               ("current_question_index", JInt (current_question_index data));
               ("questions", JList qs);
               ("user_answers", JList (map encode_answer (user_answers data)));
               ("evaluations", JList evs);
               ("interview_started", JBool (interview_started data));
               ("interview_finished", JBool (interview_finished data)) ]
             ++ encode_optional "start_time" (start_time data)
             ++ encode_optional "end_time" (end_time data))).

(** [SessionManager._serialize_data] *)
Definition _serialize_data (data : SessionState) : result json :=
  json_dumps WithDefault data.

(** *** JSON decoding *)

Definition decode_answer (v : json) : option UserAnswer :=
  match v with
  | JDict d =>
      match dict_get "question_id" d ≫= validate_str,
            dict_get "submitted_formula" d ≫= validate_str,
            dict_get "final_dataframe" d ≫= validate_table,
            dict_get "is_state_correct" d ≫= as_bool
      with
      | Some q, Some f, Some t, Some c => Some (mkUserAnswer q f t c)
      | _, _, _, _ => None
      end
  | _ => None
  end.

Definition decode_answers (v : json) : option (list UserAnswer) :=
  match v with
  | JList l => mapM decode_answer l
  | _ => None
  end.

Definition decode_optional (key : string) (d : list (string * json))
  : option (option string) :=
  match dict_get key d with
  | None => Some None
  | Some (JStr s) => Some (Some s)
  | Some _ => None
  end.

(** The fields of the loaded dict that are left as [json.loads] gave
    them, read as the record; [None] when the document is not a session
    dict. *)
Definition read_session (data : list (string * json))
    (qs : list Question) (evs : list Evaluation) : option SessionState :=
  match dict_get "session_id" data ≫= validate_str,
        dict_get "current_question_index" data ≫= as_int,
        dict_get "user_answers" data ≫= decode_answers,
        dict_get "interview_started" data ≫= as_bool,
        dict_get "interview_finished" data ≫= as_bool,
        decode_optional "start_time" data,
        decode_optional "end_time" data
  with
  | Some sid, Some i, Some ans, Some st, Some fin, Some t0, Some t1 =>
      Some (mkSessionState sid i qs ans (map Model evs) st fin t0 t1)
  | _, _, _, _, _, _, _ => None
  end.

(** [SessionManager._deserialize_data]: the questions and the
    evaluations are re-hydrated into models.  A document without one of
    the session keys has no reading as a [SessionState]; it is answered
    with the [KeyError] of the first subscript on it. *)
Definition _deserialize_data (json_str : json) : result SessionState :=
  match json_str with
  | JDict data =>
      match dict_get "questions" data, dict_get "evaluations" data with
      | Some qv, Some ev =>
          qitems ← iterate qv;
          qs ← traverse Question_new qitems;
          eitems ← iterate ev;
          evs ← traverse Evaluation_new eitems;
          match read_session data qs evs with
          | Some st => Ok st
          | None => Raise KeyError
          end
      | _, _ => Raise KeyError
      end
  | _ => Raise KeyError
  end.

(** *** The Redis keyspace *)

Record RedisEntry := mkRedisEntry {
  value : json;
  ex : Z                    (* seconds to live, set at the write *)
}.

Record SessionManager := mkSessionManager {
  sm_session_id : string;
  session_key : string
}.

(** [SessionManager.__init__] *)
Definition SessionManager_new (sid : string) : SessionManager :=
  mkSessionManager sid (String.append "interview_session:" sid).

(** [SessionManager.get_session_state] *)
Definition get_session_state (self : SessionManager)
    (redis : gmap string RedisEntry) : result (option SessionState) :=
  match redis !! session_key self with
  | Some stored_state => st ← _deserialize_data (value stored_state); Ok (Some st)
  | None => Ok None
  end.

(** [SessionManager.save_session_state] *)
Definition save_session_state (self : SessionManager) (state : SessionState)
    (redis : gmap string RedisEntry) : result (gmap string RedisEntry) :=
  serialized_state ← _serialize_data state;
  Ok (<[session_key self := mkRedisEntry serialized_state 86400]> redis).

(** [SessionManager.create_new_session] *)
Definition create_new_session (self : SessionManager) (qs : list Question)
    (redis : gmap string RedisEntry)
  : result (SessionState * gmap string RedisEntry) :=
  let initial_state :=
    mkSessionState (sm_session_id self) 0 qs [] [] false false None None in
  redis' ← save_session_state self initial_state redis;
  Ok (initial_state, redis').

End RedisDb.
Import RedisDb.

(** ** database/postgres_db.py *)

Module PostgresDb.

(** A row of [interview_results]. *)
Record Row := mkRow {
  r_session_id : string;              (* TEXT PRIMARY KEY *)
  r_start_time : option string;       (* TIMESTAMPTZ, NULL when absent *)
  r_end_time : string;                (* TIMESTAMPTZ *)
  r_final_score : Q;                  (* REAL *)
  r_feedback_summary : string;        (* TEXT *)
  r_full_transcript : json            (* JSONB *)
}.

Definition Table := list Row.

(** [ON CONFLICT (session_id) DO UPDATE SET end_time = EXCLUDED.end_time,
    final_score = ..., feedback_summary = ..., full_transcript = ...]:
    the four listed columns take the proposed values, the others keep
    the stored ones. *)
Definition do_update (stored excluded : Row) : Row :=
  mkRow (r_session_id stored)
        (r_start_time stored)
        (r_end_time excluded)
        (r_final_score excluded)
        (r_feedback_summary excluded)
        (r_full_transcript excluded).

(** [INSERT INTO interview_results ... VALUES params ON CONFLICT ...] *)
Fixpoint execute_upsert (params : Row) (t : Table) : Table :=
  match t with
  | [] => [params]
  | stored :: t' =>
      if String.eqb (r_session_id stored) (r_session_id params)
      then do_update stored params :: t'
      else stored :: execute_upsert params t'
  end.

(** Where a [psycopg2.Error] strikes, if it does. *)
Inductive PgFault : Set := NoFault | FaultAtGetconn | FaultAtExecute.

Definition newline : string := String (ascii_of_nat 10) EmptyString.

(** [e.get(key, default)]: a dict has [get], an [Evaluation] model
    does not. *)
Definition entry_get {A} (field : Evaluation -> A) (x : EvaluationEntry) : result A :=
  match x with
  | PlainDict e => Ok (field e)
  | Model _ => Raise AttributeError
  end.

Definition sum_Z (l : list Z) : Z := fold_right Z.add 0 l.

(** [sum(scores) / len(scores) if scores else 0.0] *)
Definition mean (scores : list Z) : Q :=
  match scores with
  | [] => 0%Q
  | _ => Qmake (sum_Z scores) (Pos.of_nat (length scores))
  end.

(** [save_interview_report]: [pg_pool] is [None] when the pool could not
    be created at import; [now] is the clock read for [end_time]. *)
Definition save_interview_report (pg_pool : option Table)
    (session_state : SessionState) (now : string) (fault : PgFault)
  : result (option Table) :=
  match pg_pool with
  | None => Ok None
  | Some table =>
      scores ← traverse (entry_get score) (evaluations session_state);
      let final_score := mean scores in
      feedback_items ← traverse (entry_get feedback) (evaluations session_state);
      let feedback_summary :=
        String.concat newline (map (fun fb => String.append "- " fb) feedback_items) in
      match fault with
      | FaultAtGetconn => Ok (Some table)
      | _ =>
          transcript ← json_dumps NoDefault session_state;
          let params :=
            mkRow (session_id session_state)
                  (start_time session_state)
                  now
                  final_score
                  feedback_summary
                  transcript in
          match fault with
          | NoFault => Ok (Some (execute_upsert params table))
          | _ => Ok (Some table)            (* rollback *)
          end
      end
  end.

End PostgresDb.
Import PostgresDb.

(** ** main.py *)

Module Main.

(** The two stores the screens act on. *)
Record World := mkWorld {
  redis : gmap string RedisEntry;
  pg_pool : option Table
}.

(** What one click on "Submit and Next Task" brings with it. *)
Record Submission := mkSubmission {
  edited_df : DataFrame;         (* the data editor's frame *)
  formula : string;              (* the text input *)
  excel_agent : ExcelAgent;      (* the agent as it answers this call *)
  now_finish : string;           (* datetime.now() read for state["end_time"] *)
  now_report : string;           (* datetime.now() read by save_interview_report *)
  pg_fault : PgFault
}.

Definition with_redis (w : World) (r : gmap string RedisEntry) : World :=
  mkWorld r (pg_pool w).

(** [start_screen], the button pressed. *)
Definition start_screen (session_manager : SessionManager)
    (file : QuestionsFile) (now : string) (w : World)
  : result (SessionState * World) :=
  all_questions ← load_questions file;
  created ← create_new_session session_manager all_questions (redis w);
  let session_state := created.1 in
  let session_state :=
    mkSessionState (session_id session_state)
                   (current_question_index session_state)
                   (questions session_state)
                   (user_answers session_state)
                   (evaluations session_state)
                   true
                   (interview_finished session_state)
                   (Some now)
                   (end_time session_state) in
  redis' ← save_session_state session_manager session_state created.2;
  Ok (session_state, with_redis w redis').

(** [ai_evaluation.model_dump()]: [None] has no such attribute. *)
Definition model_dump_of (ai_evaluation : option Evaluation) : result Evaluation :=
  match ai_evaluation with
  | Some e => Ok e
  | None => Raise AttributeError
  end.

(** [interview_screen], the submit button pressed.  The data editor is
    drawn from [get_starting_df()] before the button can be pressed. *)
Definition interview_screen (session_manager : SessionManager)
    (state : SessionState) (sub : Submission) (w : World)
  : result (SessionState * World) :=
  let q_index := current_question_index state in
  let questions := questions state in
  current_question ← getitem questions q_index;
  _ ← get_starting_df current_question;
  solution_df ← get_solution_df current_question;
  let is_state_correct := equals solution_df (edited_df sub) in
  let ai_evaluation :=
    evaluate_formula (excel_agent sub) current_question (formula sub) in
  let answers :=
    (user_answers state ++
      [ mkUserAnswer (id current_question) (formula sub)
                     (to_dict_list (edited_df sub)) is_state_correct ]) in
  dumped ← model_dump_of ai_evaluation;
  let evals := (evaluations state ++ [ PlainDict dumped ]) in
  let index := current_question_index state + 1 in
  let advanced :=
    mkSessionState (session_id state) index questions answers evals
                   (interview_started state) (interview_finished state)
                   (start_time state) (end_time state) in
  if Z.of_nat (length questions) <=? index then
    let finished :=
      mkSessionState (session_id state) index questions answers evals
                     (interview_started state) true
                     (start_time state) (Some (now_finish sub)) in
    pg' ← save_interview_report (pg_pool w) finished (now_report sub) (pg_fault sub);
    redis' ← save_session_state session_manager finished (redis w);
    Ok (finished, mkWorld redis' pg')
  else
    redis' ← save_session_state session_manager advanced (redis w);
    Ok (advanced, with_redis w redis').

(** What the visitor does on one run of the script. *)
Inductive Action : Type :=
| View
| ClickStart (file : QuestionsFile) (now : string)
| ClickSubmit (sub : Submission).

(** [main()] for the session id of the URL. *)
Definition main (sid : string) (a : Action) (w : World) : result World :=
  let session_manager := SessionManager_new sid in
  session_state ← get_session_state session_manager (redis w);
  match session_state with
  | None =>
      match a with
      | ClickStart file now =>
          r ← start_screen session_manager file now w; Ok r.2
      | _ => Ok w
      end
  | Some state =>
      if interview_finished state then Ok w        (* final_report_screen *)
      else if interview_started state then
        match a with
        | ClickSubmit sub =>
            r ← interview_screen session_manager state sub w; Ok r.2
        | _ => Ok w
        end
      else Ok w
  end.

(** The states the lifecycle produces: a new session, a started one, a
    state advanced by a submit, and a state read back from the store. *)
Inductive reachable : SessionState -> Prop :=
| reach_create sm qs r st r' :
    create_new_session sm qs r = Ok (st, r') ->
    reachable st
| reach_start sm file now w st w' :
    start_screen sm file now w = Ok (st, w') ->
    reachable st
| reach_submit sm st sub w st' w' :
    reachable st ->
    interview_screen sm st sub w = Ok (st', w') ->
    reachable st'
| reach_reload st doc st' :
    reachable st ->
    _serialize_data st = Ok doc ->
    _deserialize_data doc = Ok st' ->
    reachable st'.

(** The lifecycle invariant the specification states. *)
Definition lifecycle_invariant (st : SessionState) : Prop :=
  Z.of_nat (length (user_answers st)) = current_question_index st
  /\ Z.of_nat (length (evaluations st)) = current_question_index st
  /\ (interview_finished st = true
      <-> current_question_index st = Z.of_nat (length (questions st))).

End Main.
Import Main.

(** ** Inputs used by the closed examples *)

Module Examples.

Definition column_A (cells : list json) : TableData := [("A", cells)].

Definition sum_question : Question :=
  mkQuestion "q1" "Formulas" "Easy" "Sum column A"
             (column_A [JInt 1; JInt 2; JInt 3])
             (column_A [JInt 1; JInt 2; JInt 3])
             "Uses SUM".

Definition model_answer (s : Z) : json :=
  JDict [ ("score", JInt s);
          ("is_correct", JBool true);
          ("feedback", JStr "Correct use of SUM.") ].

Definition answering (v : json) : ExcelAgent :=
  mkExcelAgent (Some (fun _ => Ok v)).



Definition mean_question : Question :=
mkQuestion "q2" "Formulas" "Easy" "Average column A"
           (column_A [JInt 2; JInt 4])
           (column_A [JInt 2; JInt 4])
           "Uses AVERAGE".

Definition catalog : list Question := [sum_question; mean_question].

Definition catalog_file : QuestionsFile :=
Document (JList (map Question_model_dump catalog)).

Definition t_start : string := "2024-01-01T10:00:00".
Definition t_finish : string := "2024-01-01T10:30:00".
Definition t_report : string := "2024-01-01T10:30:01".

Definition s1 : SessionManager := SessionManager_new "s1".

(** The solution of [sum_question], as the data editor holds it. *)
Definition solved_frame : DataFrame :=
mkDataFrame [0; 1; 2] [("A", ColInt64 [1; 2; 3])].

Definition first_submission : Submission :=
mkSubmission solved_frame "=SUM(A1:A3)" (answering (model_answer 4))
             t_finish t_report NoFault.

Definition good_evaluation : Evaluation :=
mkEvaluation 4 true "Correct use of SUM.".

(** The session dict after the start and one submit, as main.py stores
    it: the evaluation is the plain dict of [model_dump()]. *)
Definition answered_state : SessionState :=
mkSessionState "s1" 1 catalog
  [mkUserAnswer "q1" "=SUM(A1:A3)" (column_A [JInt 1; JInt 2; JInt 3]) true]
  [PlainDict good_evaluation]
  true false (Some t_start) None.

(** Two reports for the same session, every column different. *)
Definition report_v1 : Row :=
mkRow "s1" (Some "2024-01-01T10:00:00") "2024-01-01T10:30:01" (3 # 1)
      "- first" (JStr "first transcript").

Definition report_v2 : Row :=
mkRow "s1" (Some "2024-01-02T09:00:00") "2024-01-02T09:45:00" (5 # 1)
      "- second" (JStr "second transcript").

(** A finished session dict over an empty catalog. *)
Definition finished_empty : SessionState :=
mkSessionState "s1" 0 [] [] [] true true (Some t_start) (Some t_finish).

(** The session dict over the catalog [[sum_question]] after its only
    submit. *)
Definition finished_state : SessionState :=
mkSessionState "s1" 1 [sum_question]
  [mkUserAnswer "q1" "=SUM(A1:A3)" (column_A [JInt 1; JInt 2; JInt 3]) true]
  [PlainDict good_evaluation]
  true true (Some t_start) (Some t_finish).

Definition weak_evaluation : Evaluation :=
mkEvaluation 2 false "Hard-coded range.".

(** A session dict that holds no model object: two evaluations as plain
    dicts and no question. *)
Definition plain_state : SessionState :=
mkSessionState "s1" 2 [] []
  [PlainDict good_evaluation; PlainDict weak_evaluation]
  true true (Some t_start) (Some t_finish).

(** The only submit of the session over [[sum_question]]. *)
Definition started_single : SessionState :=
mkSessionState "s1" 0 [sum_question] [] [] true false (Some t_start) None.

(** A second submit that leaves the table of [mean_question] wrong. *)
Definition second_submission : Submission :=
mkSubmission solved_frame "=AVERAGE(A1:A2)" (answering (model_answer 2))
             t_finish t_report NoFault.

(** A world whose PostgreSQL pool is up, with an empty table. *)
Definition world_with_pool : World := mkWorld ∅ (Some []).

Definition empty_record : json := JDict [].

Definition fresh_world : World := mkWorld ∅ None.

End Examples.
Import Examples.

(** ** Notions used to state the properties *)

Module Notions.

Definition is_mapping (v : json) : bool :=
match v with JDict _ => true | _ => false end.

(** The top-level document is a list and each of its items is a mapping. *)
Definition is_list_of_mappings (doc : json) : bool :=
match doc with
| JList l => forallb is_mapping l
| _ => false
end.

Definition is_list (doc : json) : bool :=
match doc with JList _ => true | _ => false end.


(** A record that [Question] accepts. *)
Definition valid_record (x : json) : Prop :=
exists q, Question_new x = Ok q.

(** The document [json.dumps] writes for a session dict once every
    model in it is replaced by its [model_dump()]. *)
Definition session_document (data : SessionState) : json :=
JDict ([ ("session_id", JStr (session_id data));
         ("current_question_index", JInt (current_question_index data));
         ("questions", JList (map Question_model_dump (questions data)));
         ("user_answers", JList (map encode_answer (user_answers data)));
         ("evaluations",
          JList (map (fun x => JDict (Evaluation_model_dump (entry_fields x)))
                     (evaluations data)));
         ("interview_started", JBool (interview_started data));
         ("interview_finished", JBool (interview_finished data)) ]
       ++ encode_optional "start_time" (start_time data)
       ++ encode_optional "end_time" (end_time data)).

(** A session dict after [_deserialize_data]: every evaluation is an
    [Evaluation] model, whatever it was when stored. *)
Definition rehydrated (data : SessionState) : SessionState :=
mkSessionState (session_id data) (current_question_index data)
               (questions data) (user_answers data)
               (map (fun x => Model (entry_fields x)) (evaluations data))
               (interview_started data) (interview_finished data)
               (start_time data) (end_time data).

(** The rows of a table stored under a session identifier. *)
Fixpoint rows_for (sid : string) (t : Table) : list Row :=
match t with
| [] => []
| r :: t' =>
    if String.eqb (r_session_id r) sid then r :: rows_for sid t'
    else rows_for sid t'
end.

(** The primary-key constraint of [interview_results]. *)
Definition primary_key (t : Table) : Prop := NoDup (map r_session_id t).

Definition is_plain (x : EvaluationEntry) : bool :=
match x with PlainDict _ => true | Model _ => false end.

Definition scores_of (data : SessionState) : list Z :=
map (fun x => score (entry_fields x)) (evaluations data).

Definition feedback_of (data : SessionState) : list string :=
map (fun x => feedback (entry_fields x)) (evaluations data).

Definition is_model (x : EvaluationEntry) : bool :=
match x with Model _ => true | PlainDict _ => false end.

(** The constraint of the [score] field. *)
Definition score_in_range (e : Evaluation) : Prop := 1 <= score e <= 5.

(** The state [start_screen] builds. *)
Definition started_state (sid : string) (qs : list Question) (now : string)
  : SessionState :=
mkSessionState sid 0 qs [] [] true false (Some now) None.

End Notions.
Import Notions.

(** ** main.py: what the screens show *)

Module Screens.

(** An exception raised while a screen is drawn: one of Python's, or the
    one [st.progress] raises for a value outside [0.0, 1.0]. *)
Inductive ui_exn : Set :=
| Python (e : exn)
| StreamlitAPIException.

Inductive shown (A : Type) : Type :=
| Shows (a : A)
| Fails (e : ui_exn).
Global Arguments Shows {A} a.
Global Arguments Fails {A} e.

Definition of_result {A} (r : result A) : shown A :=
match r with
| Ok a => Shows a
| Raise e => Fails (Python e)
end.

(** The two glyphs of the score line. *)
Inductive Star : Set := Filled | Hollow.

(** [s * n] for a one-glyph string: a count below 1 gives the empty
    string. *)
Definition times (g : Star) (n : Z) : list Star := repeat g (Z.to_nat n).

(** One bordered container of the detailed feedback. *)
Record TaskFeedback := mkTaskFeedback {
  tf_number : Z;                    (* Task {i+1} *)
  tf_task_description : string;
  tf_stars : list Star;
  tf_success : bool;                (* st.success, else st.error *)
  tf_feedback : string
}.

Inductive ReportScreen : Type :=
| NoEvaluationsWarning
| PerformanceReport (avg_score : Q) (progress : Q) (tasks : list TaskFeedback).

(** [e[key]]: a dict is subscriptable, an [Evaluation] model is not. *)
Definition entry_subscript {A} (field : Evaluation -> A) (x : EvaluationEntry)
  : result A :=
match x with
| PlainDict e => Ok (field e)
| Model _ => Raise TypeError
end.

(** The body of the [for i, evaluation in enumerate(evaluations)] loop,
    from position [i] on. *)
Fixpoint feedback_blocks (questions : list Question)
    (evaluations : list EvaluationEntry) (i : Z) : result (list TaskFeedback) :=
match evaluations with
| [] => Ok []
| evaluation :: rest =>
    question ← getitem questions i;
    sc ← entry_subscript score evaluation;
    correct ← entry_subscript is_correct evaluation;
    fb ← entry_subscript feedback evaluation;
    blocks ← feedback_blocks questions rest (i + 1);
    Ok (mkTaskFeedback (i + 1) (task_description question)
                       (times Filled sc ++ times Hollow (5 - sc))
                       correct fb :: blocks)
end.

(** [final_report_screen].  The average is kept as a number; its
    one-decimal rendering in the metric is not represented. *)
Definition final_report_screen (state : SessionState) : shown ReportScreen :=
match evaluations state with
| [] => Shows NoEvaluationsWarning
| _ =>
    match traverse (entry_subscript score) (evaluations state) with
    | Raise e => Fails (Python e)
    | Ok scores =>
        let avg_score := mean scores in
        let progress := (avg_score / 5)%Q in
        if Qle_bool 0 progress && Qle_bool progress 1 then
          match feedback_blocks (questions state) (evaluations state) 0 with
          | Raise e => Fails (Python e)
          | Ok blocks => Shows (PerformanceReport avg_score progress blocks)
          end
        else Fails StreamlitAPIException
    end
end.

(** What [interview_screen] draws before any button is pressed. *)
Record TaskView := mkTaskView {
  tv_number : Z;                    (* Task {q_index + 1} of {len(questions)} *)
  tv_count : Z;
  tv_topic : string;
  tv_instructions : string;
  tv_frame : DataFrame              (* the data editor's starting frame *)
}.

Definition interview_view (state : SessionState) : result TaskView :=
let q_index := current_question_index state in
current_question ← getitem (questions state) q_index;
frame ← get_starting_df current_question;
Ok (mkTaskView (q_index + 1) (Z.of_nat (length (questions state)))
               (topic current_question) (task_description current_question)
               frame).

Inductive Screen : Type :=
| StartScreen
| ReportShown (r : ReportScreen)
| TaskShown (v : TaskView)
| TitleOnly.

(** [main()] on a run without a click: which screen the visitor sees. *)
Definition main_view (sid : string) (w : World) : shown Screen :=
let session_manager := SessionManager_new sid in
match get_session_state session_manager (redis w) with
| Raise e => Fails (Python e)
| Ok None => Shows StartScreen
| Ok (Some state) =>
    if interview_finished state then
      match final_report_screen state with
      | Shows r => Shows (ReportShown r)
      | Fails e => Fails e
      end
    else if interview_started state then
      match interview_view state with
      | Ok v => Shows (TaskShown v)
      | Raise e => Fails (Python e)
      end
    else Shows TitleOnly
end.

End Screens.
Import Screens.

(** ** Further inputs and notions *)

Module Further.



(** A task whose starting table has columns of different lengths. *)
Definition ragged_question : Question :=
mkQuestion "q4" "Cleaning" "Easy" "Fill the gaps"
           [("A", [JInt 1; JInt 2]); ("B", [JInt 1])]
           [("A", [JInt 1; JInt 2]); ("B", [JInt 1; JInt 2])]
           "Uses fill-down".

Definition started_ragged : SessionState :=
mkSessionState "s1" 0 [ragged_question] [] [] true false (Some t_start) None.


(** The finished dict of [finished_state] as the store returns it. *)
Definition finished_reloaded : SessionState := rehydrated finished_state.

(** A table that holds the report of another session. *)
Definition other_report : Row :=
mkRow "s2" (Some "2024-01-01T09:00:00") "2024-01-01T09:20:00" (2 # 1)
      "- other" (JStr "other transcript").

(** The world after the start of session [s1] on [catalog_file]. *)
Definition started_world : World :=
mkWorld (<[session_key s1 :=
             mkRedisEntry (session_document (started_state "s1" catalog t_start))
                          86400]> ∅)
        None.

Definition PgFault_eq_dec (a b : PgFault) : {a = b} + {a <> b}.
Proof. decide equality. Defined.

(** The world after the only submit of the session over [[sum_question]],
    without a PostgreSQL pool. *)
Definition finished_world : World :=
mkWorld (<[session_key s1 :=
             mkRedisEntry (session_document finished_state) 86400]> ∅)
        None.


Definition answer_without_feedback : json :=
JDict [ ("score", JInt 5); ("is_correct", JBool true) ].

End Further.
Import Further.

(** * Properties *)

(** ** The evaluator *)

Section Evaluator.

Lemma validate_score_range v z :
  validate_score v = Some z -> 1 <= z <= 5.
Proof.
  unfold validate_score. intros H.
  destruct (validate_int v) as [n|]; simpl in H; [|discriminate].
  destruct (1 <=? n) eqn:Hlo; destruct (n <=? 5) eqn:Hhi;
    simpl in H; try discriminate.
  injection H as <-. lia.
Qed.

Lemma validate_score_out_of_range v z :
  validate_int v = Some z -> z < 1 \/ 5 < z -> validate_score v = None.
Proof.
  unfold validate_score. intros -> Hz. simpl.
  destruct (1 <=? z) eqn:Hlo; destruct (z <=? 5) eqn:Hhi; simpl; auto.
  lia.
Qed.

Lemma Evaluation_validate_inv kwargs e :
  Evaluation_validate kwargs = Ok e ->
  dict_get "score" kwargs ≫= validate_score = Some (score e).
Proof.
  unfold Evaluation_validate. intros H.
  destruct (dict_get "score" kwargs ≫= validate_score) as [s|]; [|discriminate].
  destruct (dict_get "is_correct" kwargs ≫= validate_bool); [|discriminate].
  destruct (dict_get "feedback" kwargs ≫= validate_str); [|discriminate].
  injection H as <-. reflexivity.
Qed.

Lemma Evaluation_new_range v e :
  Evaluation_new v = Ok e -> 1 <= score e <= 5.
Proof.
  destruct v; simpl; try discriminate.
  intros H. apply Evaluation_validate_inv in H.
  destruct (dict_get "score" d) as [x|]; simpl in H; [|discriminate].
  eauto using validate_score_range.
Qed.

Lemma error_evaluation_range : 1 <= score error_evaluation <= 5.
Proof. simpl. lia. Qed.

Lemma invoke_chain_range c q f e :
  invoke_chain c q f = Ok e -> 1 <= score e <= 5.
Proof.
  unfold invoke_chain. intros H.
  destruct (c _) as [v|]; simpl in H; [|discriminate].
  destruct (subscript v "score"); simpl in H; [|discriminate].
  eauto using Evaluation_new_range.
Qed.



Lemma invoke_chain_invalid c q f v x :
  c (chain_input_of q f) = Ok v ->
  Evaluation_new v = Raise x ->
  exists y, invoke_chain c q f = Raise y.
Proof.
  unfold invoke_chain. intros -> Hv. simpl.
  destruct (subscript v "score"); simpl; eauto.
Qed.



Lemma evaluate_formula_on_invalid c q f v x :
  c (chain_input_of q f) = Ok v -> Evaluation_new v = Raise x ->
  evaluate_formula (mkExcelAgent (Some c)) q f = Some error_evaluation.
Proof.
  intros Hv Hbad. unfold evaluate_formula; simpl.
  destruct (invoke_chain_invalid _ _ _ _ _ Hv Hbad) as [y ->]. reflexivity.
Qed.


End Evaluator.

Section EvaluatorClaims.




(** C10: every [Evaluation] that [evaluate_formula] returns, the
    sentinel included, has a score between 1 and 5; an answer whose
    score is outside that range does not validate and the sentinel is
    returned in its place. *)
Theorem evaluate_formula_score_in_range :
  (forall agent q f e,
      evaluate_formula agent q f = Some e -> 1 <= score e <= 5)
  /\ (forall c q f d v z,
      c (chain_input_of q f) = Ok (JDict d) ->
      dict_get "score" d = Some v ->
      validate_int v = Some z ->
      z < 1 \/ 5 < z ->
      evaluate_formula (mkExcelAgent (Some c)) q f = Some error_evaluation).
Proof.
  split.
  - intros [[c|]] q f e; unfold evaluate_formula; simpl; [|discriminate].
    destruct (invoke_chain c q f) as [e'|] eqn:He; intros [= <-].
    + eauto using invoke_chain_range.
    + apply error_evaluation_range.
  - intros c q f d v z Hc Hd Hv Hz.
    apply (evaluate_formula_on_invalid c q f (JDict d) ValidationError Hc).
    simpl. unfold Evaluation_validate.
    rewrite Hd. simpl. rewrite (validate_score_out_of_range _ _ Hv Hz).
    reflexivity.
Qed.

Lemma evaluate_formula_score_in_range_witness :
  1 <= score (mkEvaluation 4 true "Correct use of SUM.") <= 5
  /\ evaluate_formula (answering (model_answer 9)) sum_question "=SUM(A1:A3)"
     = Some error_evaluation.
Proof.
  split.
  - apply (proj1 evaluate_formula_score_in_range
             (answering (model_answer 4)) sum_question "=SUM(A1:A3)").
    reflexivity.
  - apply (proj2 evaluate_formula_score_in_range
             (fun _ => Ok (model_answer 9)) sum_question "=SUM(A1:A3)"
             [ ("score", JInt 9); ("is_correct", JBool true);
               ("feedback", JStr "Correct use of SUM.") ] (JInt 9) 9);
      [reflexivity | reflexivity | reflexivity | lia].
Defined.

End EvaluatorClaims.

(** ** The question catalog *)

Section Catalog.

Lemma traverse_ok_Forall2 {A B} (f : A -> result B) l ys :
  traverse f l = Ok ys <-> Forall2 (fun x y => f x = Ok y) l ys.
Proof.
  revert ys. induction l as [|x l IH]; intros ys; simpl.
  - split.
    + intros [= <-]. constructor.
    + intros H. inversion H. reflexivity.
  - split.
    + destruct (f x) as [y|] eqn:Hx; simpl; [|discriminate].
      destruct (traverse f l) as [ys'|] eqn:Hl; simpl; [|discriminate].
      intros [= <-]. constructor; [assumption|]. apply IH. reflexivity.
    + intros H. inversion H as [|? y ? ys' Hx Hl]; subst.
      rewrite Hx. simpl. apply IH in Hl. rewrite Hl. reflexivity.
Qed.

Lemma traverse_first_raise {A B} (f : A -> result B) pre x post ys e :
  traverse f pre = Ok ys -> f x = Raise e ->
  traverse f (pre ++ x :: post) = Raise e.
Proof.
  revert ys. induction pre as [|p pre IH]; intros ys; simpl.
  - intros _ ->. reflexivity.
  - destruct (f p) as [y|]; simpl; [|discriminate].
    destruct (traverse f pre) as [ys'|] eqn:Hpre; simpl; [|discriminate].
    intros _ Hx. rewrite (IH ys' eq_refl Hx). reflexivity.
Qed.

(** Every list of items splits at its first item that [f] rejects. *)
Lemma traverse_raise_split {A B} (f : A -> result B) l e :
  traverse f l = Raise e ->
  exists pre x post ys,
    l = pre ++ x :: post /\ traverse f pre = Ok ys /\ f x = Raise e.
Proof.
  induction l as [|a l IH]; simpl; [discriminate|].
  destruct (f a) as [y|] eqn:Ha; simpl.
  - destruct (traverse f l) as [ys|] eqn:Hl; simpl; [discriminate|].
    intros [= ->]. destruct (IH eq_refl) as (pre & x & post & zs & -> & Hpre & Hx).
    exists (a :: pre), x, post, (y :: zs). simpl. rewrite Ha, Hpre. auto.
  - intros [= ->]. exists [], a, l, []. auto.
Qed.

Lemma Question_validate_raises kwargs e :
  Question_validate kwargs = Raise e -> e = ValidationError.
Proof.
  unfold Question_validate.
  repeat match goal with
         | |- context [match ?o ≫= ?f with _ => _ end] => destruct (o ≫= f)
         end; congruence.
Qed.

Lemma Question_new_not_mapping x :
  is_mapping x = false -> Question_new x = Raise TypeError.
Proof. destruct x; simpl; congruence. Qed.

Lemma Question_new_invalid_mapping x :
  is_mapping x = true -> ~ valid_record x -> Question_new x = Raise ValidationError.
Proof.
  destruct x; simpl; try discriminate. intros _ Hbad.
  destruct (Question_validate d) as [q|e] eqn:Hq.
  - exfalso. apply Hbad. exists q. exact Hq.
  - apply Question_validate_raises in Hq. congruence.
Qed.

Lemma Question_new_raises x e :
  Question_new x = Raise e ->
  (e = TypeError /\ is_mapping x = false)
  \/ (e = ValidationError /\ is_mapping x = true).
Proof.
  destruct x; simpl; intros H; try (left; split; congruence).
  right. apply Question_validate_raises in H. auto.
Qed.

Lemma load_questions_document doc items :
  iterate doc = Ok items ->
  load_questions (Document doc) =
    match traverse Question_new items with
    | Raise TypeError => Ok []
    | r => r
    end.
Proof.
  unfold load_questions. simpl. intros ->. simpl.
  destruct (traverse Question_new items) as [qs|e] eqn:Ht; [reflexivity|].
  destruct (traverse_raise_split _ _ _ Ht) as (? & x & ? & ? & _ & _ & Hx).
  destruct (Question_new_raises _ _ Hx) as [[-> _]|[-> _]]; reflexivity.
Qed.

Lemma chars_not_valid s : Forall (fun x => is_mapping x = false) (chars s).
Proof. induction s; simpl; constructor; auto. Qed.

(** An iterable that yields no mapping at all loads as the empty list. *)
Lemma load_questions_no_mapping doc items :
  iterate doc = Ok items ->
  Forall (fun x => is_mapping x = false) items ->
  load_questions (Document doc) = Ok [].
Proof.
  intros Hit Hall. rewrite (load_questions_document _ _ Hit).
  destruct Hall as [|x l Hx _]; [reflexivity|].
  simpl. rewrite (Question_new_not_mapping _ Hx). reflexivity.
Qed.

Lemma load_questions_not_a_list doc :
  is_list doc = false -> load_questions (Document doc) = Ok [].
Proof.
  destruct doc; simpl; try discriminate; intros _; try reflexivity.
  - eapply load_questions_no_mapping; [reflexivity|]. apply chars_not_valid.
  - eapply load_questions_no_mapping; [reflexivity|].
    induction d; simpl; constructor; auto.
Qed.

Lemma load_questions_first_not_mapping doc items pre x post qs :
  iterate doc = Ok items -> items = pre ++ x :: post ->
  traverse Question_new pre = Ok qs ->
  is_mapping x = false ->
  load_questions (Document doc) = Ok [].
Proof.
  intros Hit -> Hpre Hx. rewrite (load_questions_document _ _ Hit).
  rewrite (traverse_first_raise _ _ _ _ _ _ Hpre (Question_new_not_mapping _ Hx)).
  reflexivity.
Qed.

Lemma load_questions_first_invalid doc items pre x post qs :
  iterate doc = Ok items -> items = pre ++ x :: post ->
  traverse Question_new pre = Ok qs ->
  is_mapping x = true -> ~ valid_record x ->
  load_questions (Document doc) = Raise ValidationError.
Proof.
  intros Hit -> Hpre Hx Hbad. rewrite (load_questions_document _ _ Hit).
  rewrite (traverse_first_raise _ _ _ _ _ _ Hpre
             (Question_new_invalid_mapping _ Hx Hbad)).
  reflexivity.
Qed.

End Catalog.

(** ** Serialisation of the session dict *)

Section Serialisation.

Lemma traverse_total {A B} (g : A -> B) l :
  traverse (fun x => Ok (g x)) l = Ok (map g l).
Proof.
  induction l as [|x l IH]; simpl; [reflexivity|]. rewrite IH. reflexivity.
Qed.

Lemma encode_entry_with_default x :
  encode_entry WithDefault x = Ok (JDict (Evaluation_model_dump (entry_fields x))).
Proof. destruct x; reflexivity. Qed.

Lemma traverse_ext {A B} (f g : A -> result B) l :
  (forall x, f x = g x) -> traverse f l = traverse g l.
Proof.
  intros H. induction l as [|x l IH]; simpl; [reflexivity|].
  rewrite H, IH. reflexivity.
Qed.

(** With the default serializer installed, serialisation never raises. *)
Lemma serialize_data_total data :
  _serialize_data data = Ok (session_document data).
Proof.
  unfold _serialize_data, json_dumps, session_document. simpl.
  rewrite traverse_total. simpl.
  rewrite (traverse_ext _ _ _ encode_entry_with_default).
  rewrite traverse_total. reflexivity.
Qed.

Lemma save_session_state_ok sm st r :
  save_session_state sm st r
  = Ok (<[session_key sm := mkRedisEntry (session_document st) 86400]> r).
Proof. unfold save_session_state. rewrite serialize_data_total. reflexivity. Qed.

Lemma get_after_save sm doc ttl r :
  get_session_state sm (<[session_key sm := mkRedisEntry doc ttl]> r)
  = (st ← _deserialize_data doc; Ok (Some st)).
Proof. unfold get_session_state. rewrite lookup_insert_eq. reflexivity. Qed.

Lemma create_new_session_ok sm qs r :
  create_new_session sm qs r
  = Ok (mkSessionState (sm_session_id sm) 0 qs [] [] false false None None,
        <[session_key sm :=
            mkRedisEntry
              (session_document
                 (mkSessionState (sm_session_id sm) 0 qs [] [] false false None None))
              86400]> r).
Proof. unfold create_new_session. rewrite save_session_state_ok. reflexivity. Qed.

Lemma start_screen_raises sm f now w e :
  load_questions f = Raise e -> start_screen sm f now w = Raise e.
Proof. unfold start_screen. intros ->. reflexivity. Qed.

Lemma start_screen_ok sm f now w qs :
  load_questions f = Ok qs ->
  start_screen sm f now w
  = Ok (started_state (sm_session_id sm) qs now,
        with_redis w
          (<[session_key sm :=
               mkRedisEntry
                 (session_document (started_state (sm_session_id sm) qs now))
                 86400]> (redis w))).
Proof.
  unfold start_screen. intros ->. simpl.
  rewrite create_new_session_ok. simpl.
  rewrite save_session_state_ok. simpl.
  rewrite insert_insert_eq. reflexivity.
Qed.

Lemma validate_columns_dump t :
  validate_columns (map (fun kv => (fst kv, JList (snd kv))) t) = Some t.
Proof.
  induction t as [|[k l] t IH]; simpl; [reflexivity|]. rewrite IH. reflexivity.
Qed.

Lemma Question_new_model_dump q : Question_new (Question_model_dump q) = Ok q.
Proof.
  destruct q as [i t d td sd sol ec].
  unfold Question_model_dump, Question_new, Question_validate, dump_table; simpl.
  rewrite !validate_columns_dump. reflexivity.
Qed.

Lemma Evaluation_new_model_dump e :
  score_in_range e -> Evaluation_new (JDict (Evaluation_model_dump e)) = Ok e.
Proof.
  destruct e as [s c f]. unfold score_in_range; simpl. intros [Hlo Hhi].
  unfold Evaluation_validate, validate_score; simpl.
  apply Z.leb_le in Hlo, Hhi. rewrite Hlo, Hhi. reflexivity.
Qed.

Lemma decode_answer_encode a : decode_answer (encode_answer a) = Some a.
Proof.
  destruct a as [q f t c]. unfold decode_answer, encode_answer, dump_table; simpl.
  rewrite validate_columns_dump. reflexivity.
Qed.

Lemma decode_answers_encode l :
  decode_answers (JList (map encode_answer l)) = Some l.
Proof.
  unfold decode_answers. apply mapM_Some.
  induction l as [|a l IH]; constructor; auto using decode_answer_encode.
Qed.

Lemma traverse_Question_new_dump qs :
  traverse Question_new (map Question_model_dump qs) = Ok qs.
Proof.
  induction qs as [|q qs IH]; [reflexivity|].
  cbn [map traverse]. rewrite Question_new_model_dump.
  cbn [bind]. rewrite IH. reflexivity.
Qed.

Lemma traverse_Evaluation_new_dump evs :
  Forall (fun x => score_in_range (entry_fields x)) evs ->
  traverse Evaluation_new
           (map (fun x => JDict (Evaluation_model_dump (entry_fields x))) evs)
  = Ok (map entry_fields evs).
Proof.
  induction 1 as [|x evs Hx _ IH]; [reflexivity|].
  cbn [map traverse]. rewrite (Evaluation_new_model_dump _ Hx).
  cbn [bind]. rewrite IH. reflexivity.
Qed.

(** Reading back the document of a session dict re-hydrates it. *)
Lemma deserialize_session_document data :
  Forall (fun x => score_in_range (entry_fields x)) (evaluations data) ->
  _deserialize_data (session_document data) = Ok (rehydrated data).
Proof.
  intros Hev. destruct data as [sid i qs ans evs st fin t0 t1]; simpl in Hev.
  unfold _deserialize_data, session_document, rehydrated; simpl.
  rewrite traverse_Question_new_dump. simpl.
  rewrite (traverse_Evaluation_new_dump _ Hev). simpl.
  unfold read_session; simpl.
  pose proof (decode_answers_encode ans) as Hans. simpl in Hans. rewrite Hans.
  rewrite map_map.
  destruct t0, t1; reflexivity.
Qed.

End Serialisation.

Section CatalogClaims.


(** C9, counterexample: a list that holds a non-mapping (so not a list of
    mappings) after a mapping that fails validation does not load as the
    empty list: the validation error of the first item propagates. *)
Lemma load_questions_mixed_document_raises :
  is_list_of_mappings (JList [empty_record; JInt 5]) = false
  /\ load_questions (Document (JList [empty_record; JInt 5])) = Raise ValidationError
  /\ load_questions (Document (JList [empty_record; JInt 5])) <> Ok [].
Proof. split; [reflexivity | split; [reflexivity | discriminate]]. Qed.

(** C9, amended: [load_questions] returns the empty list, without raising,
    when the file is missing, holds invalid JSON, holds a document that is
    not a list, or holds a list whose first item that is not a valid
    record is not a mapping; when that first item is a mapping that fails
    field validation, the validation error propagates to the caller. *)
Theorem load_questions_failure_modes :
  load_questions FileMissing = Ok []
  /\ load_questions InvalidJSON = Ok []
  /\ (forall doc, is_list doc = false -> load_questions (Document doc) = Ok [])
  /\ (forall pre x post qs,
        traverse Question_new pre = Ok qs ->
        is_mapping x = false ->
        load_questions (Document (JList (pre ++ x :: post))) = Ok [])
  /\ (forall pre x post qs,
        traverse Question_new pre = Ok qs ->
        is_mapping x = true -> ~ valid_record x ->
        load_questions (Document (JList (pre ++ x :: post))) = Raise ValidationError).
Proof.
  split; [reflexivity|]. split; [reflexivity|].
  split; [apply load_questions_not_a_list|]. split.
  - intros pre x post qs Hpre Hx.
    eapply load_questions_first_not_mapping; eauto.
  - intros pre x post qs Hpre Hx Hbad.
    eapply load_questions_first_invalid; eauto.
Qed.

Lemma load_questions_failure_modes_witness :
  load_questions (Document (JList ([Question_model_dump sum_question] ++ JInt 5 :: [empty_record])))
  = Ok []
  /\ load_questions (Document (JList ([Question_model_dump sum_question] ++ empty_record :: [JInt 5])))
     = Raise ValidationError.
Proof.
  destruct load_questions_failure_modes as (_ & _ & _ & Hskip & Hfail). split.
  - apply (Hskip [Question_model_dump sum_question] (JInt 5) [empty_record]
                 [sum_question]); reflexivity.
  - apply (Hfail [Question_model_dump sum_question] empty_record [JInt 5]
                 [sum_question]); [reflexivity | reflexivity |].
    intros [q Hq]. discriminate Hq.
Defined.




End CatalogClaims.

(** ** The session lifecycle *)

Section Lifecycle.

Local Arguments save_session_state : simpl never.
Local Arguments save_interview_report : simpl never.

Lemma getitem_ok_bounds {A} (l : list A) i x :
  getitem l i = Ok x -> 0 <= i -> 0 <= i < Z.of_nat (length l).
Proof.
  unfold getitem. intros H Hi.
  destruct (i <? 0) eqn:Hneg; [apply Z.ltb_lt in Hneg; lia|].
  destruct ((i <? 0) || (Z.of_nat (length l) <=? i)) eqn:Hout; [discriminate|].
  apply orb_false_iff in Hout as [_ Hhi]. apply Z.leb_gt in Hhi. lia.
Qed.

Lemma getitem_empty {A} i : getitem (@nil A) i = Raise IndexError.
Proof.
  unfold getitem. change (Z.of_nat (length (@nil A))) with 0.
  destruct (i <? 0) eqn:Hneg; rewrite ?Z.add_0_r, ?Hneg; simpl;
    [reflexivity|].
  apply Z.ltb_ge in Hneg. apply Z.leb_le in Hneg. rewrite Hneg. reflexivity.
Qed.

(** What a successful submit did to the session dict. *)
Lemma interview_screen_inv sm st sub w st' w' :
  interview_screen sm st sub w = Ok (st', w') ->
  exists q sol e,
    getitem (questions st) (current_question_index st) = Ok q
    /\ get_solution_df q = Ok sol
    /\ evaluate_formula (excel_agent sub) q (formula sub) = Some e
    /\ session_id st' = session_id st
    /\ questions st' = questions st
    /\ current_question_index st' = current_question_index st + 1
    /\ user_answers st' =
         user_answers st ++
           [mkUserAnswer (id q) (formula sub) (to_dict_list (edited_df sub))
                         (equals sol (edited_df sub))]
    /\ evaluations st' = evaluations st ++ [PlainDict e]
    /\ interview_started st' = interview_started st
    /\ start_time st' = start_time st
    /\ interview_finished st' =
         (if Z.of_nat (length (questions st)) <=? current_question_index st + 1
          then true else interview_finished st).
Proof.
  unfold interview_screen. intros H.
  destruct (getitem _ _) as [q|] eqn:Hq; simpl in H; [|discriminate].
  destruct (get_starting_df q) as [start_df|]; simpl in H; [|discriminate].
  destruct (get_solution_df q) as [sol|] eqn:Hsol; simpl in H; [|discriminate].
  destruct (evaluate_formula _ _ _) as [e|] eqn:He; simpl in H; [|discriminate].
  exists q, sol, e.
  destruct (Z.of_nat (length (questions st)) <=? current_question_index st + 1).
  - destruct (save_interview_report _ _ _ _); simpl in H; [|discriminate].
    rewrite save_session_state_ok in H. simpl in H.
    injection H as <- <-. simpl. tauto.
  - rewrite save_session_state_ok in H. simpl in H.
    injection H as <- <-. simpl. tauto.
Qed.

Lemma deserialize_serialized st doc st' :
  _serialize_data st = Ok doc -> _deserialize_data doc = Ok st' ->
  Forall (fun x => score_in_range (entry_fields x)) (evaluations st) ->
  st' = rehydrated st.
Proof.
  rewrite serialize_data_total. intros [= <-] Hget Hev.
  rewrite (deserialize_session_document _ Hev) in Hget. congruence.
Qed.

Lemma evaluate_formula_in_range agent q f e :
  evaluate_formula agent q f = Some e -> score_in_range e.
Proof.
  destruct agent as [[c|]]; unfold evaluate_formula; simpl; [|discriminate].
  destruct (invoke_chain c q f) as [e'|] eqn:He; intros [= <-].
  - eapply invoke_chain_range; eauto.
  - apply error_evaluation_range.
Qed.

(** Every evaluation of a reachable session dict satisfies the score
    constraint, so reading the dict back never fails. *)
Lemma reachable_scores st :
  reachable st ->
  Forall (fun x => score_in_range (entry_fields x)) (evaluations st).
Proof.
  induction 1 as [sm qs r st r' Hc | sm file now w st w' Hs
                 | sm st sub w st' w' _ IH Hi | st doc st' Hr IH Hser Hde].
  - rewrite create_new_session_ok in Hc. injection Hc as <- _. constructor.
  - destruct (load_questions file) as [qs|e] eqn:Hl.
    + rewrite (start_screen_ok _ _ _ _ _ Hl) in Hs. injection Hs as <- _. constructor.
    + rewrite (start_screen_raises _ _ _ _ _ Hl) in Hs. discriminate.
  - apply interview_screen_inv in Hi
      as (q & sol & e & _ & _ & He & _ & _ & _ & _ & Hev & _).
    rewrite Hev. apply Forall_app. split; [exact IH|].
    constructor; [|constructor]. simpl. eauto using evaluate_formula_in_range.
  - rewrite (deserialize_serialized _ _ _ Hser Hde IH). simpl.
    rewrite Forall_map. simpl.
    eapply Forall_impl; [exact IH|]. intros [e|e]; auto.
Qed.

(** The invariant that holds of every reachable session dict. *)
Lemma reachable_invariant st :
  reachable st ->
  0 <= current_question_index st <= Z.of_nat (length (questions st))
  /\ Z.of_nat (length (user_answers st)) = current_question_index st
  /\ Z.of_nat (length (evaluations st)) = current_question_index st
  /\ (questions st <> [] ->
      (interview_finished st = true
       <-> current_question_index st = Z.of_nat (length (questions st))))
  /\ (questions st = [] ->
      interview_finished st = false /\ current_question_index st = 0).
Proof.
  induction 1 as [sm qs r st r' Hc | sm file now w st w' Hs
                 | sm st sub w st' w' Hr IH Hi | st doc st' Hr IH Hser Hde].
  - rewrite create_new_session_ok in Hc. injection Hc as <- _. simpl.
    repeat split; try lia; try discriminate; try reflexivity.
    intros Hidx. destruct qs; [congruence | simpl in Hidx; lia].
  - destruct (load_questions file) as [qs|e] eqn:Hl.
    + rewrite (start_screen_ok _ _ _ _ _ Hl) in Hs. injection Hs as <- _. simpl.
      repeat split; try lia; try discriminate; try reflexivity.
      intros Hidx. destruct qs; [congruence | simpl in Hidx; lia].
    + rewrite (start_screen_raises _ _ _ _ _ Hl) in Hs. discriminate.
  - apply interview_screen_inv in Hi
      as (q & sol & e & Hq & _ & _ & _ & Hqs & Hidx & Hans & Hev & _ & _ & Hfin).
    destruct IH as ([Hlo Hhi] & Hla & Hle & Hne & Hemp).
    apply getitem_ok_bounds in Hq; [|exact Hlo].
    rewrite Hqs, Hidx, Hans, Hev, Hfin, !length_app. simpl.
    assert (Hnonempty : questions st <> []).
    { intros Heq. rewrite Heq in Hq. simpl in Hq. lia. }
    specialize (Hne Hnonempty).
    repeat split; try lia.
    + destruct (Z.of_nat (length (questions st)) <=? current_question_index st + 1)
        eqn:Hcmp.
      * apply Z.leb_le in Hcmp. lia.
      * intros Hf. apply Hne in Hf. lia.
    + destruct (Z.of_nat (length (questions st)) <=? current_question_index st + 1)
        eqn:Hcmp; [reflexivity|].
      apply Z.leb_gt in Hcmp. lia.
    + congruence.
    + congruence.
  - rewrite (deserialize_serialized _ _ _ Hser Hde (reachable_scores _ Hr)).
    simpl. rewrite length_map. exact IH.
Qed.

End Lifecycle.

Section LifecycleClaims.

Lemma catalog_file_loads : load_questions catalog_file = Ok catalog.
Proof. reflexivity. Qed.

Lemma started_state_reachable sid qs now f :
  load_questions f = Ok qs -> reachable (started_state sid qs now).
Proof.
  intros Hl.
  eapply (reach_start (SessionManager_new sid) f now fresh_world).
  exact (start_screen_ok (SessionManager_new sid) f now fresh_world qs Hl).
Qed.

Lemma answered_state_reachable : reachable answered_state.
Proof.
  eapply (reach_submit s1 (started_state "s1" catalog t_start)
                       first_submission fresh_world).
  - apply (started_state_reachable _ _ _ catalog_file). reflexivity.
  - vm_compute. reflexivity.
Qed.

(** C1, counterexample: the session started on an empty catalog is
    reachable, its index equals the number of questions (both are 0), and
    [interview_finished] is false. *)
Lemma empty_catalog_breaks_finished_iff :
  reachable (started_state "s1" [] t_start)
  /\ ~ lifecycle_invariant (started_state "s1" [] t_start).
Proof.
  split.
  - apply (started_state_reachable _ _ _ FileMissing). reflexivity.
  - unfold lifecycle_invariant; simpl. intros (_ & _ & [_ Hfin]).
    specialize (Hfin eq_refl). discriminate.
Qed.

(** C1, amended: in every reachable session dict the numbers of
    [user_answers] and of [evaluations] both equal
    [current_question_index], which lies between 0 and the number of
    questions; when the list of questions is not empty,
    [interview_finished] is true exactly when the index equals the number
    of questions; when it is empty, [interview_finished] is false. *)
Theorem lifecycle_invariant_reachable st :
  reachable st ->
  Z.of_nat (length (user_answers st)) = current_question_index st
  /\ Z.of_nat (length (evaluations st)) = current_question_index st
  /\ 0 <= current_question_index st <= Z.of_nat (length (questions st))
  /\ (questions st <> [] -> lifecycle_invariant st)
  /\ (questions st = [] -> interview_finished st = false).
Proof.
  intros Hr. destruct (reachable_invariant _ Hr) as (Hb & Ha & He & Hne & Hemp).
  unfold lifecycle_invariant. repeat split; try tauto; try lia;
    intros; apply Hne; assumption.
Qed.

Lemma lifecycle_invariant_reachable_witness :
  lifecycle_invariant answered_state.
Proof.
  apply (lifecycle_invariant_reachable answered_state answered_state_reachable).
  discriminate.
Defined.

(** With no question to show, [interview_screen] cannot run. *)
Lemma interview_screen_empty_catalog sm st sub w :
  questions st = [] -> interview_screen sm st sub w = Raise IndexError.
Proof.
  intros Hq. unfold interview_screen. rewrite Hq, getitem_empty. reflexivity.
Qed.

(** C4, counterexample: started on an empty catalog, the session is not
    in the finished state. *)
Lemma start_on_empty_catalog_not_finished :
  exists st w,
    start_screen s1 (Document (JList [])) t_start fresh_world = Ok (st, w)
    /\ questions st = []
    /\ interview_finished st = false.
Proof.
  eexists _, _. split; [|split].
  - apply (start_screen_ok _ _ _ _ []). reflexivity.
  - reflexivity.
  - reflexivity.
Qed.

(** C4, amended: when the catalog is empty, the start transition stores a
    session that is started and not finished, at index 0, with no answer
    and no evaluation; the mean of its evaluation scores is 0. *)
Theorem start_on_empty_catalog f sm now w :
  load_questions f = Ok [] ->
  exists st w',
    start_screen sm f now w = Ok (st, w')
    /\ get_session_state sm (redis w') = Ok (Some st)
    /\ questions st = []
    /\ interview_started st = true
    /\ interview_finished st = false
    /\ current_question_index st = 0
    /\ user_answers st = []
    /\ evaluations st = []
    /\ mean (map (fun x => score (entry_fields x)) (evaluations st)) = 0%Q.
Proof.
  intros Hl. eexists _, _. split; [apply (start_screen_ok _ _ _ _ _ Hl)|].
  split; [|repeat split].
  unfold with_redis; simpl. rewrite get_after_save.
  rewrite deserialize_session_document by constructor. reflexivity.
Qed.

Lemma start_on_empty_catalog_witness :
  exists st w',
    start_screen s1 FileMissing t_start fresh_world = Ok (st, w')
    /\ get_session_state s1 (redis w') = Ok (Some st)
    /\ questions st = []
    /\ interview_started st = true
    /\ interview_finished st = false
    /\ current_question_index st = 0
    /\ user_answers st = []
    /\ evaluations st = []
    /\ mean (map (fun x => score (entry_fields x)) (evaluations st)) = 0%Q.
Proof.
  apply (start_on_empty_catalog FileMissing s1 t_start fresh_world).
  reflexivity.
Defined.

End LifecycleClaims.

(** ** The session store *)

Section SessionStoreClaims.

Lemma rehydrated_models st :
  forallb is_model (evaluations st) = true -> rehydrated st = st.
Proof.
  destruct st as [sid i qs ans evs started fin t0 t1]; unfold rehydrated; simpl.
  intros Hall. f_equal.
  induction evs as [|x evs IH]; [reflexivity|].
  simpl in Hall. apply andb_prop in Hall as [Hx Hrest].
  simpl. rewrite (IH Hrest). destruct x; [discriminate | reflexivity].
Qed.

(** What the round trip changes: the session dict stored after one
    submit holds its evaluation as a plain dict, and the dict read back
    holds an [Evaluation] model of the same field values in its place. *)
Lemma stored_evaluation_comes_back_as_model :
  reachable answered_state
  /\ exists r',
      save_session_state s1 answered_state ∅ = Ok r'
      /\ get_session_state s1 r' = Ok (Some (rehydrated answered_state))
      /\ evaluations answered_state = [PlainDict good_evaluation]
      /\ evaluations (rehydrated answered_state) = [Model good_evaluation]
      /\ rehydrated answered_state <> answered_state.
Proof.
  split; [exact answered_state_reachable|].
  eexists. split; [apply save_session_state_ok|].
  split; [|split; [reflexivity|split; [reflexivity|discriminate]]].
  rewrite get_after_save. reflexivity.
Qed.

(** C5: a read of the session store right after a write returns the
    stored session dict up to the round trip of its serialization: every
    field is equal to the stored one, and the evaluations carry the same
    field values, in the same order, as [Evaluation] models, also when
    they were stored as plain dicts as the lifecycle stores them.  (An
    [Evaluation] has a score between 1 and 5, as every dict the lifecycle
    reaches has.)  A dict whose evaluations are all models is returned
    identical. *)
Theorem session_store_round_trip sm st r :
  Forall (fun x => score_in_range (entry_fields x)) (evaluations st) ->
  exists r' st',
    save_session_state sm st r = Ok r'
    /\ get_session_state sm r' = Ok (Some st')
    /\ session_id st' = session_id st
    /\ current_question_index st' = current_question_index st
    /\ questions st' = questions st
    /\ user_answers st' = user_answers st
    /\ evaluations st' = map (fun x => Model (entry_fields x)) (evaluations st)
    /\ interview_started st' = interview_started st
    /\ interview_finished st' = interview_finished st
    /\ start_time st' = start_time st
    /\ end_time st' = end_time st
    /\ (forallb is_model (evaluations st) = true -> st' = st).
Proof.
  intros Hev. exists (<[session_key sm := mkRedisEntry (session_document st) 86400]> r).
  exists (rehydrated st). split; [apply save_session_state_ok|].
  split.
  - rewrite get_after_save, (deserialize_session_document _ Hev). reflexivity.
  - repeat split. apply rehydrated_models.
Qed.

Lemma session_store_round_trip_witness :
  exists r' st',
    save_session_state s1 answered_state ∅ = Ok r'
    /\ get_session_state s1 r' = Ok (Some st')
    /\ session_id st' = session_id answered_state
    /\ current_question_index st' = current_question_index answered_state
    /\ questions st' = questions answered_state
    /\ user_answers st' = user_answers answered_state
    /\ evaluations st'
       = map (fun x => Model (entry_fields x)) (evaluations answered_state)
    /\ interview_started st' = interview_started answered_state
    /\ interview_finished st' = interview_finished answered_state
    /\ start_time st' = start_time answered_state
    /\ end_time st' = end_time answered_state
    /\ (forallb is_model (evaluations answered_state) = true -> st' = answered_state).
Proof.
  apply (session_store_round_trip s1 answered_state ∅).
  repeat constructor; simpl; lia.
Defined.

End SessionStoreClaims.

(** ** The report store *)

Section ReportStore.

Lemma rows_for_absent sid t :
  sid ∉ map r_session_id t -> rows_for sid t = [].
Proof.
  induction t as [|r t IH]; simpl; [reflexivity|]. intros Hnot.
  apply not_elem_of_cons in Hnot as [Hne Hrest].
  destruct (String.eqb_spec (r_session_id r) sid); [congruence | auto].
Qed.

Lemma upsert_keys p t k :
  k ∈ map r_session_id (execute_upsert p t) ->
  k ∈ map r_session_id t \/ k = r_session_id p.
Proof.
  induction t as [|r t IH]; simpl.
  - intros Hk. apply list_elem_of_singleton in Hk. auto.
  - destruct (String.eqb_spec (r_session_id r) (r_session_id p)); simpl.
    + auto.
    + intros Hk. apply elem_of_cons in Hk as [->|Hk].
      * left. apply list_elem_of_here.
      * destruct (IH Hk); [left; apply list_elem_of_further|]; auto.
Qed.

(** The upsert keeps the primary key. *)
Lemma upsert_primary_key p t :
  primary_key t -> primary_key (execute_upsert p t).
Proof.
  unfold primary_key. induction t as [|r t IH]; simpl.
  - intros _. apply NoDup_singleton.
  - intros Hnd. apply NoDup_cons in Hnd as [Hnot Hnd].
    destruct (String.eqb_spec (r_session_id r) (r_session_id p)); simpl.
    + apply NoDup_cons. auto.
    + apply NoDup_cons. split; [|auto].
      intros Hk. apply upsert_keys in Hk as [Hk|Hk]; congruence.
Qed.

Lemma upsert_rows_for p t :
  primary_key t ->
  rows_for (r_session_id p) (execute_upsert p t) =
    match rows_for (r_session_id p) t with
    | [] => [p]
    | stored :: _ => [do_update stored p]
    end.
Proof.
  unfold primary_key. induction t as [|r t IH]; simpl.
  - intros _. rewrite String.eqb_refl. reflexivity.
  - intros Hnd. apply NoDup_cons in Hnd as [Hnot Hnd].
    destruct (String.eqb_spec (r_session_id r) (r_session_id p)) as [Heq|Hne]; simpl.
    + rewrite Heq, String.eqb_refl. rewrite Heq in Hnot.
      rewrite (rows_for_absent _ _ Hnot). reflexivity.
    + destruct (String.eqb_spec (r_session_id r) (r_session_id p)); [congruence|].
      apply IH. exact Hnd.
Qed.

Lemma upsert_rows_nonempty p t :
  primary_key t ->
  exists row, rows_for (r_session_id p) (execute_upsert p t) = [row]
              /\ r_session_id row = r_session_id p.
Proof.
  intros Hpk. rewrite (upsert_rows_for _ _ Hpk).
  destruct (rows_for (r_session_id p) t) as [|stored rest] eqn:Hrows.
  - eauto.
  - exists (do_update stored p). split; [reflexivity|]. simpl.
    assert (Hin : String.eqb (r_session_id stored) (r_session_id p) = true).
    { clear Hpk. revert Hrows. induction t as [|r t IH]; simpl; [discriminate|].
      destruct (String.eqb (r_session_id r) (r_session_id p)) eqn:He; [|exact IH].
      intros [= <- _]. exact He. }
    apply String.eqb_eq. exact Hin.
Qed.

Lemma upsert_length_existing p t :
  r_session_id p ∈ map r_session_id t ->
  length (execute_upsert p t) = length t.
Proof.
  induction t as [|r t IH]; simpl.
  - intros H. inversion H.
  - destruct (String.eqb_spec (r_session_id r) (r_session_id p)); simpl; [reflexivity|].
    intros Hk. apply elem_of_cons in Hk as [Hk|Hk]; [congruence|].
    rewrite (IH Hk). reflexivity.
Qed.

Lemma upsert_key_present p t :
  r_session_id p ∈ map r_session_id (execute_upsert p t).
Proof.
  induction t as [|r t IH]; simpl.
  - apply list_elem_of_here.
  - destruct (String.eqb_spec (r_session_id r) (r_session_id p)) as [Heq|]; simpl.
    + rewrite Heq. apply list_elem_of_here.
    + apply list_elem_of_further. exact IH.
Qed.

(** C6, counterexample: upserting twice under the same session
    identifier leaves one row, but its [start_time] is the first call's,
    not the second's. *)
Lemma second_upsert_keeps_first_start_time :
  r_session_id report_v1 = r_session_id report_v2
  /\ exists row,
      execute_upsert report_v2 (execute_upsert report_v1 []) = [row]
      /\ r_start_time row = r_start_time report_v1
      /\ r_start_time row <> r_start_time report_v2.
Proof.
  split; [reflexivity|]. eexists. split; [reflexivity|].
  split; [reflexivity|discriminate].
Qed.

(** C6, amended: on a table that satisfies its primary key, two upserts
    under the same session identifier leave exactly one row for that
    identifier and do not add a row the second time; the row's [end_time],
    [final_score], [feedback_summary] and [full_transcript] are the second
    call's, while its [start_time] is the one the row had after the first
    call (the first call's when the row was new). *)
Theorem upsert_twice t p1 p2 :
  primary_key t ->
  r_session_id p1 = r_session_id p2 ->
  primary_key (execute_upsert p2 (execute_upsert p1 t))
  /\ length (execute_upsert p2 (execute_upsert p1 t))
     = length (execute_upsert p1 t)
  /\ exists first row,
      rows_for (r_session_id p1) (execute_upsert p1 t) = [first]
      /\ rows_for (r_session_id p2) (execute_upsert p2 (execute_upsert p1 t)) = [row]
      /\ r_session_id row = r_session_id p2
      /\ r_end_time row = r_end_time p2
      /\ r_final_score row = r_final_score p2
      /\ r_feedback_summary row = r_feedback_summary p2
      /\ r_full_transcript row = r_full_transcript p2
      /\ r_start_time row = r_start_time first
      /\ (r_session_id p1 ∉ map r_session_id t ->
          r_start_time row = r_start_time p1).
Proof.
  intros Hpk Hsame.
  pose proof (upsert_primary_key p1 t Hpk) as Hpk1.
  split; [apply upsert_primary_key; exact Hpk1|].
  split.
  - apply upsert_length_existing. rewrite <- Hsame. apply upsert_key_present.
  - destruct (upsert_rows_nonempty p1 t Hpk) as (first & Hfirst & Hid).
    exists first, (do_update first p2).
    split; [exact Hfirst|]. split.
    + rewrite (upsert_rows_for p2 _ Hpk1), <- Hsame, Hfirst. reflexivity.
    + simpl. repeat split; try congruence.
      intros Hnew. rewrite (upsert_rows_for _ _ Hpk) in Hfirst.
      rewrite (rows_for_absent _ _ Hnew) in Hfirst. congruence.
Qed.

Lemma upsert_twice_witness :
  primary_key (execute_upsert report_v2 (execute_upsert report_v1 []))
  /\ length (execute_upsert report_v2 (execute_upsert report_v1 []))
     = length (execute_upsert report_v1 [])
  /\ exists first row,
      rows_for (r_session_id report_v1) (execute_upsert report_v1 []) = [first]
      /\ rows_for (r_session_id report_v2)
                  (execute_upsert report_v2 (execute_upsert report_v1 [])) = [row]
      /\ r_session_id row = r_session_id report_v2
      /\ r_end_time row = r_end_time report_v2
      /\ r_final_score row = r_final_score report_v2
      /\ r_feedback_summary row = r_feedback_summary report_v2
      /\ r_full_transcript row = r_full_transcript report_v2
      /\ r_start_time row = r_start_time first
      /\ (r_session_id report_v1 ∉ map r_session_id (@nil Row) ->
          r_start_time row = r_start_time report_v1).
Proof.
  apply (upsert_twice [] report_v1 report_v2).
  - apply NoDup_nil_2.
  - reflexivity.
Defined.

End ReportStore.

Section Report.

Lemma entry_get_plain {A} (field : Evaluation -> A) evs :
  forallb is_plain evs = true ->
  traverse (entry_get field) evs = Ok (map (fun x => field (entry_fields x)) evs).
Proof.
  induction evs as [|x evs IH]; simpl; [reflexivity|].
  intros Hall. apply andb_prop in Hall as [Hx Hrest].
  destruct x; [|discriminate]. simpl. rewrite (IH Hrest). reflexivity.
Qed.

Lemma entry_get_model {A} (field : Evaluation -> A) evs :
  forallb is_plain evs = false ->
  traverse (entry_get field) evs = Raise AttributeError.
Proof.
  induction evs as [|x evs IH]; simpl; [discriminate|].
  destruct x; simpl; [|reflexivity]. intros Hrest. rewrite (IH Hrest). reflexivity.
Qed.

Lemma encode_entries_plain enc evs :
  forallb is_plain evs = true ->
  traverse (encode_entry enc) evs
  = Ok (map (fun x => JDict (Evaluation_model_dump (entry_fields x))) evs).
Proof.
  induction evs as [|x evs IH]; simpl; [reflexivity|].
  intros Hall. apply andb_prop in Hall as [Hx Hrest].
  destruct x; [|discriminate]. simpl. rewrite (IH Hrest). reflexivity.
Qed.

Lemma encode_entries_model evs :
  forallb is_plain evs = false ->
  traverse (encode_entry NoDefault) evs = Raise TypeError.
Proof.
  induction evs as [|x evs IH]; simpl; [discriminate|].
  destruct x; simpl; [|reflexivity]. intros Hrest. rewrite (IH Hrest). reflexivity.
Qed.

(** Without the default serializer, [json.dumps] succeeds exactly on a
    session dict that holds no model object. *)
Lemma json_dumps_plain_ok st doc :
  json_dumps NoDefault st = Ok doc ->
  questions st = [] /\ forallb is_plain (evaluations st) = true
  /\ doc = session_document st.
Proof.
  unfold json_dumps, session_document.
  destruct (questions st) as [|q qs]; simpl; [|discriminate].
  destruct (forallb is_plain (evaluations st)) eqn:Hplain.
  - rewrite (encode_entries_plain _ _ Hplain). simpl. intros [= <-]. auto.
  - rewrite (encode_entries_model _ Hplain). discriminate.
Qed.

Lemma json_dumps_plain_questions st :
  questions st <> [] -> json_dumps NoDefault st = Raise TypeError.
Proof.
  unfold json_dumps. destruct (questions st); [congruence|]. reflexivity.
Qed.

(** A session dict that holds a [Question] model cannot be reported:
    [json.dumps(session_state)] has no default serializer. *)
Lemma save_interview_report_with_questions table st now fault :
  questions st <> [] ->
  forallb is_plain (evaluations st) = true ->
  fault <> FaultAtGetconn ->
  save_interview_report (Some table) st now fault = Raise TypeError.
Proof.
  intros Hq Hplain Hfault. unfold save_interview_report.
  rewrite !(entry_get_plain _ _ Hplain). simpl.
  rewrite (json_dumps_plain_questions _ Hq).
  destruct fault; [reflexivity | congruence | reflexivity].
Qed.

(** Nor can one whose evaluations were read back from the store. *)
Lemma save_interview_report_with_model table st now fault :
  forallb is_plain (evaluations st) = false ->
  save_interview_report (Some table) st now fault = Raise AttributeError.
Proof.
  intros Hmodel. unfold save_interview_report.
  rewrite (entry_get_model score _ Hmodel). reflexivity.
Qed.

Lemma mean_nonempty scores :
  scores <> [] ->
  (mean scores == inject_Z (sum_Z scores) / inject_Z (Z.of_nat (length scores)))%Q.
Proof.
  destruct scores as [|z l]; [congruence|]. intros _.
  unfold mean. rewrite Qmake_Qdiv.
  replace (Z.pos (Pos.of_nat (length (z :: l)))) with (Z.of_nat (length (z :: l))).
  - reflexivity.
  - simpl length. rewrite <- Pos.of_nat_succ, Zpos_P_of_succ_nat, Nat2Z.inj_succ.
    reflexivity.
Qed.

Lemma finished_state_reachable : reachable finished_state.
Proof.
  eapply (reach_submit s1 started_single first_submission fresh_world).
  - apply (started_state_reachable _ _ _
             (Document (JList [Question_model_dump sum_question]))).
    reflexivity.
  - vm_compute. reflexivity.
Qed.

(** The [end_time] of a written report is the clock read by
    [save_interview_report], not the [end_time] recorded in the session
    dict; and for the finished dict the lifecycle reaches, which holds its
    questions as models, no report is written at all. *)
Lemma report_end_time_is_read_anew :
  (exists row,
      save_interview_report (Some []) finished_empty t_report NoFault
      = Ok (Some [row])
      /\ end_time finished_empty = Some t_finish
      /\ r_end_time row = t_report
      /\ r_end_time row <> t_finish)
  /\ reachable finished_state
  /\ save_interview_report (Some []) finished_state t_report NoFault
     = Raise TypeError.
Proof.
  split; [|split].
  - eexists. split; [reflexivity|]. split; [reflexivity|].
    split; [reflexivity|discriminate].
  - exact finished_state_reachable.
  - reflexivity.
Qed.

(** The row that [save_interview_report] upserts for a session dict
    that [json.dumps] can encode, that is, one that holds no model. *)
Theorem save_interview_report_row table st now doc :
  json_dumps NoDefault st = Ok doc ->
  exists row,
    save_interview_report (Some table) st now NoFault
    = Ok (Some (execute_upsert row table))
    /\ r_session_id row = session_id st
    /\ r_start_time row = start_time st
    /\ r_end_time row = now
    /\ (scores_of st = [] -> r_final_score row = 0%Q)
    /\ (scores_of st <> [] ->
        (r_final_score row ==
           inject_Z (sum_Z (scores_of st))
           / inject_Z (Z.of_nat (length (scores_of st))))%Q)
    /\ r_feedback_summary row
       = String.concat newline (map (String.append "- ") (feedback_of st))
    /\ r_full_transcript row = session_document st.
Proof.
  intros Hdoc.
  destruct (json_dumps_plain_ok _ _ Hdoc) as (Hq & Hplain & ->).
  eexists. split.
  - unfold save_interview_report.
    rewrite !(entry_get_plain _ _ Hplain). simpl. rewrite Hdoc. reflexivity.
  - simpl. fold (scores_of st). fold (feedback_of st).
    repeat split.
    + intros ->. reflexivity.
    + apply mean_nonempty.
Qed.

Lemma save_interview_report_row_witness :
  exists row,
    save_interview_report (Some [report_v1]) plain_state t_report NoFault
    = Ok (Some (execute_upsert row [report_v1]))
    /\ r_session_id row = session_id plain_state
    /\ r_start_time row = start_time plain_state
    /\ r_end_time row = t_report
    /\ (scores_of plain_state = [] -> r_final_score row = 0%Q)
    /\ (scores_of plain_state <> [] ->
        (r_final_score row ==
           inject_Z (sum_Z (scores_of plain_state))
           / inject_Z (Z.of_nat (length (scores_of plain_state))))%Q)
    /\ r_feedback_summary row
       = String.concat newline (map (String.append "- ") (feedback_of plain_state))
    /\ r_full_transcript row = session_document plain_state.
Proof.
  apply (save_interview_report_row [report_v1] plain_state t_report
           (session_document plain_state)).
  reflexivity.
Defined.

(** C7 (the code at the failing input): no finished session dict that
    the lifecycle reaches can be reported.  Once a connection was
    obtained [save_interview_report] raises on it, [TypeError] from
    [json.dumps(session_state)] on the [Question] models when the
    evaluations are plain dicts, [AttributeError] from [e.get] when one of
    them was read back as a model; no row is written. *)
Theorem finished_session_is_never_reported st t now fault :
  reachable st ->
  interview_finished st = true ->
  fault <> FaultAtGetconn ->
  questions st <> []
  /\ ((forallb is_plain (evaluations st) = true
       /\ save_interview_report (Some t) st now fault = Raise TypeError)
      \/ (forallb is_plain (evaluations st) = false
          /\ save_interview_report (Some t) st now fault = Raise AttributeError)).
Proof.
  intros Hr Hfin Hfault.
  destruct (reachable_invariant _ Hr) as (_ & _ & _ & _ & Hemp).
  assert (Hq : questions st <> []).
  { intros Hnil. destruct (Hemp Hnil) as [Hf _]. congruence. }
  split; [exact Hq|].
  destruct (forallb is_plain (evaluations st)) eqn:Hplain.
  - left. split; [reflexivity|].
    apply save_interview_report_with_questions; assumption.
  - right. split; [reflexivity|].
    apply save_interview_report_with_model. exact Hplain.
Qed.

Lemma finished_session_is_never_reported_witness :
  questions finished_state <> []
  /\ ((forallb is_plain (evaluations finished_state) = true
       /\ save_interview_report (Some [report_v1]) finished_state t_report NoFault
          = Raise TypeError)
      \/ (forallb is_plain (evaluations finished_state) = false
          /\ save_interview_report (Some [report_v1]) finished_state t_report NoFault
             = Raise AttributeError)).
Proof.
  apply (finished_session_is_never_reported finished_state [report_v1] t_report
           NoFault finished_state_reachable).
  - reflexivity.
  - discriminate.
Defined.

End Report.

(** ** Scenarios *)

Section Scenarios.

(** A catalog of two tasks, a start and two submits: without a PostgreSQL
    pool the session ends finished at index 2, its two evaluations read
    back as models. *)
Example two_task_interview :
  exists w1 w2 w3 st,
    main "s1" (ClickStart catalog_file t_start) fresh_world = Ok w1
    /\ main "s1" (ClickSubmit first_submission) w1 = Ok w2
    /\ main "s1" (ClickSubmit second_submission) w2 = Ok w3
    /\ get_session_state s1 (redis w3) = Ok (Some st)
    /\ interview_finished st = true
    /\ current_question_index st = 2
    /\ map is_state_correct (user_answers st) = [true; false]
    /\ map (fun x => score (entry_fields x)) (evaluations st) = [4; 2]
    /\ forallb is_model (evaluations st) = true
    /\ main "s1" (ClickSubmit first_submission) w3 = Ok w3.
Proof.
  eexists _, _, _, _.
  split; [vm_compute; reflexivity|].
  split; [vm_compute; reflexivity|].
  split; [vm_compute; reflexivity|].
  split; [vm_compute; reflexivity|].
  repeat split.
Qed.

(** With the pool up, the submit that would finish the session raises
    inside [save_interview_report] and the session dict is not saved: on
    the first evaluation read back as a model when there are two tasks,
    on the questions when there is one. *)
Example finishing_submit_with_pool_raises :
  (exists w1 w2,
      main "s1" (ClickStart catalog_file t_start) world_with_pool = Ok w1
      /\ main "s1" (ClickSubmit first_submission) w1 = Ok w2
      /\ main "s1" (ClickSubmit second_submission) w2 = Raise AttributeError)
  /\ interview_screen s1 started_single first_submission world_with_pool
     = Raise TypeError.
Proof.
  split.
  - eexists _, _.
    split; [vm_compute; reflexivity|].
    split; [vm_compute; reflexivity|].
    vm_compute. reflexivity.
  - vm_compute. reflexivity.
Qed.

(** The reader of an expired or unknown key sees no session, and without
    a click nothing is written. *)
Example absent_session_shows_start_screen sid w :
  redis w !! session_key (SessionManager_new sid) = None ->
  get_session_state (SessionManager_new sid) (redis w) = Ok None
  /\ main sid View w = Ok w.
Proof.
  intros Hnone. unfold main, get_session_state. rewrite Hnone. split; reflexivity.
Qed.

End Scenarios.

(** ** Further properties: models and the session store *)

Section ModelRoundTrips.

(** X1: a catalog written as the [model_dump()] of its questions loads
    back as the same questions, in the same order. *)
Theorem catalog_round_trip qs :
  load_questions (Document (JList (map Question_model_dump qs))) = Ok qs.
Proof.
  rewrite (load_questions_document (JList (map Question_model_dump qs))
             (map Question_model_dump qs) eq_refl).
  rewrite traverse_Question_new_dump. reflexivity.
Qed.

Lemma Evaluation_dump_out_of_range e :
  ~ score_in_range e ->
  Evaluation_new (JDict (Evaluation_model_dump e)) = Raise ValidationError.
Proof.
  destruct e as [s c f]. unfold score_in_range; simpl. intros Hout.
  unfold Evaluation_validate, validate_score; simpl.
  destruct (1 <=? s) eqn:Hlo; destruct (s <=? 5) eqn:Hhi; simpl; try reflexivity.
  apply Z.leb_le in Hlo, Hhi. tauto.
Qed.

(** X2: the dump of an [Evaluation] validates back to the same value
    exactly when its score lies between 1 and 5; outside that range the
    constructor raises the validation error. *)
Theorem Evaluation_round_trip e :
  (Evaluation_new (JDict (Evaluation_model_dump e)) = Ok e <-> score_in_range e)
  /\ (Evaluation_new (JDict (Evaluation_model_dump e)) = Raise ValidationError
      <-> ~ score_in_range e).
Proof.
  split; split.
  - intros H. apply Evaluation_new_range in H. exact H.
  - apply Evaluation_new_model_dump.
  - intros H Hin. rewrite (Evaluation_new_model_dump _ Hin) in H. discriminate.
  - apply Evaluation_dump_out_of_range.
Qed.

Lemma read_session_fields data qs evs st :
  read_session data qs evs = Some st ->
  questions st = qs /\ evaluations st = map Model evs.
Proof.
  unfold read_session. intros H.
  repeat match type of H with
         | match ?o with _ => _ end = _ => destruct o; [|discriminate]
         end.
  injection H as <-. auto.
Qed.

Lemma deserialize_inv doc st :
  _deserialize_data doc = Ok st ->
  exists evs,
    evaluations st = map Model evs /\ Forall score_in_range evs.
Proof.
  unfold _deserialize_data. intros H.
  destruct doc as [| | | | | |data]; try discriminate.
  destruct (dict_get "questions" data) as [qv|]; [|discriminate].
  destruct (dict_get "evaluations" data) as [ev|]; [|discriminate].
  destruct (iterate qv) as [qitems|]; simpl in H; [|discriminate].
  destruct (traverse Question_new qitems) as [qs|]; simpl in H; [|discriminate].
  destruct (iterate ev) as [eitems|]; simpl in H; [|discriminate].
  destruct (traverse Evaluation_new eitems) as [evs|] eqn:Hevs; simpl in H;
    [|discriminate].
  destruct (read_session data qs evs) as [st0|] eqn:Hread; [|discriminate].
  injection H as <-. exists evs. split.
  - apply (read_session_fields _ _ _ _ Hread).
  - apply traverse_ok_Forall2 in Hevs. clear Hread.
    induction Hevs as [|x y l l' Hxy _ IH]; constructor; [|exact IH].
    exact (Evaluation_new_range _ _ Hxy).
Qed.

Lemma models_are_models (evs : list Evaluation) :
  forallb is_model (map Model evs) = true.
Proof. induction evs; simpl; auto. Qed.

(** X3: whatever document the store holds, a session dict that
    [_deserialize_data] returns has every evaluation as a model with a
    score between 1 and 5, and it is a fixed point of the store: written
    and read again it comes back unchanged. *)
Theorem deserialized_state_is_stable doc st :
  _deserialize_data doc = Ok st ->
  forallb is_model (evaluations st) = true
  /\ Forall (fun x => score_in_range (entry_fields x)) (evaluations st)
  /\ forall sm r,
      exists r',
        save_session_state sm st r = Ok r'
        /\ get_session_state sm r' = Ok (Some st).
Proof.
  intros Hde. destruct (deserialize_inv _ _ Hde) as (evs & Hev & Hrange).
  assert (Hmodels : forallb is_model (evaluations st) = true)
    by (rewrite Hev; apply models_are_models).
  assert (Hscores : Forall (fun x => score_in_range (entry_fields x)) (evaluations st)).
  { rewrite Hev. apply Forall_map. exact Hrange. }
  split; [exact Hmodels|]. split; [exact Hscores|].
  intros sm r. eexists. split; [apply save_session_state_ok|].
  rewrite get_after_save, (deserialize_session_document _ Hscores).
  simpl. rewrite (rehydrated_models _ Hmodels). reflexivity.
Qed.

Lemma deserialized_state_is_stable_witness :
  forallb is_model (evaluations finished_reloaded) = true
  /\ Forall (fun x => score_in_range (entry_fields x)) (evaluations finished_reloaded)
  /\ forall sm r,
      exists r',
        save_session_state sm finished_reloaded r = Ok r'
        /\ get_session_state sm r' = Ok (Some finished_reloaded).
Proof.
  apply (deserialized_state_is_stable (session_document finished_state)).
  reflexivity.
Defined.

End ModelRoundTrips.

Section SessionIsolation.

Lemma session_key_inj sid sid' :
  session_key (SessionManager_new sid) = session_key (SessionManager_new sid') ->
  sid = sid'.
Proof. simpl. intros H. injection H as H. exact H. Qed.

Lemma interview_screen_redis sm st sub w st' w' :
  interview_screen sm st sub w = Ok (st', w') ->
  redis w' = <[session_key sm := mkRedisEntry (session_document st') 86400]> (redis w).
Proof.
  unfold interview_screen. intros H.
  destruct (getitem _ _) as [q|]; simpl in H; [|discriminate].
  destruct (get_starting_df q); simpl in H; [|discriminate].
  destruct (get_solution_df q); simpl in H; [|discriminate].
  destruct (evaluate_formula _ _ _); simpl in H; [|discriminate].
  destruct (Z.of_nat (length (questions st)) <=? current_question_index st + 1).
  - destruct (save_interview_report _ _ _ _); simpl in H; [|discriminate].
    rewrite save_session_state_ok in H. simpl in H.
    injection H as <- <-. reflexivity.
  - rewrite save_session_state_ok in H. simpl in H.
    injection H as <- <-. reflexivity.
Qed.

Lemma main_redis sid a w w' :
  main sid a w = Ok w' ->
  redis w' = redis w
  \/ exists entry, redis w' = <[session_key (SessionManager_new sid) := entry]> (redis w).
Proof.
  unfold main. intros H.
  destruct (get_session_state _ _) as [[st|]|]; simpl in H; [| |discriminate].
  - destruct (interview_finished st); [injection H as <-; auto|].
    destruct (interview_started st); [|injection H as <-; auto].
    destruct a as [|file now|sub]; try (injection H as <-; auto).
    destruct (interview_screen _ _ _ _) as [[st' w'']|] eqn:Hi; simpl in H;
      [|discriminate].
    injection H as <-. right. eexists. apply (interview_screen_redis _ _ _ _ _ _ Hi).
  - destruct a as [|file now|sub]; try (injection H as <-; auto).
    destruct (load_questions file) as [qs|e] eqn:Hl.
    + rewrite (start_screen_ok _ _ _ _ _ Hl) in H. simpl in H.
      injection H as <-. right. eexists. reflexivity.
    + rewrite (start_screen_raises _ _ _ _ _ Hl) in H. discriminate.
Qed.

(** X4: a run of [main] for one session identifier never touches the
    entry of another: whatever the action, a different session reads the
    same state before and after. *)
Theorem main_leaves_other_sessions sid sid' a w w' :
  sid <> sid' ->
  main sid a w = Ok w' ->
  redis w' !! session_key (SessionManager_new sid')
  = redis w !! session_key (SessionManager_new sid')
  /\ get_session_state (SessionManager_new sid') (redis w')
     = get_session_state (SessionManager_new sid') (redis w).
Proof.
  intros Hne Hmain.
  assert (Hlook : redis w' !! session_key (SessionManager_new sid')
                  = redis w !! session_key (SessionManager_new sid')).
  { destruct (main_redis _ _ _ _ Hmain) as [->|[entry ->]]; [reflexivity|].
    apply lookup_insert_ne. intros Hk. apply Hne. apply session_key_inj. exact Hk. }
  split; [exact Hlook|]. unfold get_session_state. rewrite Hlook. reflexivity.
Qed.

Lemma main_leaves_other_sessions_witness :
  redis started_world !! session_key (SessionManager_new "s2")
  = redis fresh_world !! session_key (SessionManager_new "s2")
  /\ get_session_state (SessionManager_new "s2") (redis started_world)
     = get_session_state (SessionManager_new "s2") (redis fresh_world).
Proof.
  apply (main_leaves_other_sessions "s1" "s2" (ClickStart catalog_file t_start)
           fresh_world started_world).
  - discriminate.
  - vm_compute. reflexivity.
Defined.

End SessionIsolation.

(** ** Further properties: the lifecycle *)

Section LifecycleFurther.

Local Arguments save_session_state : simpl never.
Local Arguments save_interview_report : simpl never.


Lemma getitem_nth {A} (l : list A) i x :
  getitem l i = Ok x -> 0 <= i -> nth_error l (Z.to_nat i) = Some x.
Proof.
  unfold getitem. intros H Hi.
  destruct (i <? 0) eqn:Hneg; [apply Z.ltb_lt in Hneg; lia|].
  destruct ((i <? 0) || (Z.of_nat (length l) <=? i)); [discriminate|].
  destruct (nth_error l (Z.to_nat i)); congruence.
Qed.

Lemma firstn_snoc {A} (l : list A) n x :
  nth_error l n = Some x -> firstn (S n) l = firstn n l ++ [x].
Proof.
  revert l. induction n as [|n IH]; intros [|a l]; simpl; try discriminate.
  - intros [= ->]. reflexivity.
  - intros H. rewrite <- (IH _ H). reflexivity.
Qed.



(** X6: the answers are aligned with the questions.  In every reachable
    dict the [question_id]s of the recorded answers are the ids of the
    first [current_question_index] questions, in order. *)
Theorem answers_follow_questions st :
  reachable st ->
  map question_id (user_answers st)
  = map Models.id (firstn (Z.to_nat (current_question_index st)) (questions st)).
Proof.
  induction 1 as [sm qs r st r' Hc | sm file now w st w' Hs
                 | sm st sub w st' w' Hr IH Hi | st doc st' Hr IH Hser Hde].
  - rewrite create_new_session_ok in Hc. injection Hc as <- _. reflexivity.
  - destruct (load_questions file) as [qs|e] eqn:Hl.
    + rewrite (start_screen_ok _ _ _ _ _ Hl) in Hs. injection Hs as <- _. reflexivity.
    + rewrite (start_screen_raises _ _ _ _ _ Hl) in Hs. discriminate.
  - destruct (reachable_invariant _ Hr) as ([Hlo _] & _).
    apply interview_screen_inv in Hi
      as (q & sol & e & Hq & _ & _ & _ & Hqs & Hidx & Hans & _).
    apply getitem_nth in Hq; [|exact Hlo].
    rewrite Hqs, Hidx, Hans, map_app, IH. simpl.
    replace (Z.to_nat (current_question_index st + 1))
      with (S (Z.to_nat (current_question_index st))) by lia.
    rewrite (firstn_snoc _ _ _ Hq), map_app. reflexivity.
  - rewrite (deserialize_serialized _ _ _ Hser Hde (reachable_scores _ Hr)).
    exact IH.
Qed.

Lemma answers_follow_questions_witness :
  map question_id (user_answers answered_state)
  = map Models.id (firstn (Z.to_nat (current_question_index answered_state))
                          (questions answered_state)).
Proof.
  apply (answers_follow_questions answered_state answered_state_reachable).
Defined.

Lemma sum_Z_bounds l :
  Forall (fun z => 1 <= z <= 5) l ->
  Z.of_nat (length l) <= sum_Z l <= 5 * Z.of_nat (length l).
Proof.
  induction 1 as [|z l Hz _ IH]; simpl; [lia|].
  unfold sum_Z in *. simpl. lia.
Qed.

Lemma mean_bounds l :
  l <> [] -> Forall (fun z => 1 <= z <= 5) l -> (1 <= mean l <= 5)%Q.
Proof.
  intros Hne Hall. pose proof (sum_Z_bounds _ Hall) as Hsum.
  destruct l as [|z l]; [congruence|].
  unfold mean, Qle. cbn [Qnum Qden].
  replace (Z.pos (Pos.of_nat (length (z :: l)))) with (Z.of_nat (length (z :: l))).
  - lia.
  - simpl length. rewrite <- Pos.of_nat_succ, Zpos_P_of_succ_nat, Nat2Z.inj_succ.
    reflexivity.
Qed.

(** X7: the aggregate score of a reachable session that has at least one
    evaluation lies between 1 and 5. *)
Theorem reachable_mean_in_range st :
  reachable st ->
  evaluations st <> [] ->
  (1 <= mean (scores_of st) <= 5)%Q.
Proof.
  intros Hr Hne. apply mean_bounds.
  - unfold scores_of. destruct (evaluations st); [congruence | discriminate].
  - unfold scores_of. apply Forall_map.
    exact (reachable_scores _ Hr).
Qed.

Lemma reachable_mean_in_range_witness :
  (1 <= mean (scores_of answered_state) <= 5)%Q.
Proof.
  apply (reachable_mean_in_range answered_state answered_state_reachable).
  discriminate.
Defined.

End LifecycleFurther.

(** ** Further properties: the report store *)

Section ReportFurther.

Lemma rows_for_upsert_other p t sid :
  sid <> r_session_id p ->
  rows_for sid (execute_upsert p t) = rows_for sid t.
Proof.
  intros Hne. induction t as [|r t IH]; simpl.
  - destruct (String.eqb_spec (r_session_id p) sid); [congruence | reflexivity].
  - destruct (String.eqb_spec (r_session_id r) (r_session_id p)) as [Heq|Hother];
      simpl.
    + destruct (String.eqb_spec (r_session_id r) sid); [congruence | reflexivity].
    + rewrite IH. reflexivity.
Qed.

Lemma save_interview_report_table t st now fault r :
  save_interview_report (Some t) st now fault = Ok r ->
  r = Some t
  \/ (fault = NoFault
      /\ exists row, r_session_id row = session_id st
                     /\ r = Some (execute_upsert row t)).
Proof.
  unfold save_interview_report. intros H.
  destruct (traverse (entry_get score) _) as [scores|]; simpl in H; [|discriminate].
  destruct (traverse (entry_get feedback) _) as [items|]; simpl in H; [|discriminate].
  destruct fault.
  - destruct (json_dumps NoDefault st) as [doc|]; simpl in H; [|discriminate].
    injection H as <-. right. split; [reflexivity|]. eexists. split; [|reflexivity].
    reflexivity.
  - injection H as <-. auto.
  - destruct (json_dumps NoDefault st) as [doc|]; simpl in H; [|discriminate].
    injection H as <-. auto.
Qed.

(** X8: whenever [save_interview_report] returns, the table still
    satisfies its primary key and the rows of every other session are as
    they were; when a database error was caught, the table is unchanged. *)
Theorem save_interview_report_frame t st now fault r :
  primary_key t ->
  save_interview_report (Some t) st now fault = Ok r ->
  exists t',
    r = Some t'
    /\ primary_key t'
    /\ (forall sid, sid <> session_id st -> rows_for sid t' = rows_for sid t)
    /\ (fault <> NoFault -> t' = t).
Proof.
  intros Hpk Hsave.
  destruct (save_interview_report_table _ _ _ _ _ Hsave)
    as [->|(-> & row & Hid & ->)].
  - exists t. auto.
  - exists (execute_upsert row t). split; [reflexivity|].
    split; [apply upsert_primary_key; exact Hpk|]. split.
    + intros sid Hsid. apply rows_for_upsert_other. congruence.
    + congruence.
Qed.

Lemma save_interview_report_frame_witness :
  exists t',
    Some (execute_upsert
            (mkRow "s1" (Some t_start) t_report (mean (scores_of plain_state))
                   (String.concat newline
                      (map (String.append "- ") (feedback_of plain_state)))
                   (session_document plain_state))
            [other_report]) = Some t'
    /\ primary_key t'
    /\ (forall sid, sid <> session_id plain_state ->
                    rows_for sid t' = rows_for sid [other_report])
    /\ (NoFault <> NoFault -> t' = [other_report]).
Proof.
  apply (save_interview_report_frame [other_report] plain_state t_report NoFault).
  - apply NoDup_singleton.
  - reflexivity.
Defined.

(** X9: [save_interview_report] cannot report a session dict that holds
    models.  If one of its evaluations is an [Evaluation] model it raises
    [AttributeError]; if its evaluations are plain dicts but it holds
    questions, it raises [TypeError] once a connection was obtained. *)
Theorem save_interview_report_rejects_models t st now fault :
  (forallb is_plain (evaluations st) = false ->
   save_interview_report (Some t) st now fault = Raise AttributeError)
  /\ (forallb is_plain (evaluations st) = true ->
      questions st <> [] ->
      fault <> FaultAtGetconn ->
      save_interview_report (Some t) st now fault = Raise TypeError).
Proof.
  split.
  - apply save_interview_report_with_model.
  - intros Hplain Hq Hfault. apply save_interview_report_with_questions; assumption.
Qed.

Lemma save_interview_report_rejects_models_witness :
  save_interview_report (Some []) finished_reloaded t_report NoFault
  = Raise AttributeError
  /\ save_interview_report (Some []) finished_state t_report FaultAtExecute
     = Raise TypeError.
Proof.
  split.
  - apply (proj1 (save_interview_report_rejects_models
                    [] finished_reloaded t_report NoFault)).
    reflexivity.
  - apply (proj2 (save_interview_report_rejects_models
                    [] finished_state t_report FaultAtExecute));
      [reflexivity | discriminate | discriminate].
Defined.

Local Arguments save_session_state : simpl never.
Local Arguments save_interview_report : simpl never.

(** X10: a submit can only finish a session when no report is written.
    If [interview_screen] returns and has turned [interview_finished]
    from false to true, then the PostgreSQL pool is missing or obtaining
    a connection failed. *)
Theorem finishing_submit_writes_no_report sm st sub w st' w' :
  interview_screen sm st sub w = Ok (st', w') ->
  interview_finished st = false ->
  interview_finished st' = true ->
  (pg_pool w = None \/ pg_fault sub = FaultAtGetconn)
  /\ pg_pool w' = pg_pool w.
Proof.
  unfold interview_screen. intros H Hbefore Hafter.
  destruct (getitem _ _) as [q|] eqn:Hq; simpl in H; [|discriminate].
  destruct (get_starting_df q); simpl in H; [|discriminate].
  destruct (get_solution_df q); simpl in H; [|discriminate].
  destruct (evaluate_formula _ _ _) as [e|]; simpl in H; [|discriminate].
  assert (Hne : questions st <> []).
  { intros Hnil. rewrite Hnil, getitem_empty in Hq. discriminate. }
  destruct (Z.of_nat (length (questions st)) <=? current_question_index st + 1).
  - destruct (pg_pool w) as [t|] eqn:Hpool.
    + destruct (save_interview_report _ _ _ _) as [r|] eqn:Hsave; simpl in H;
        [|discriminate].
      rewrite save_session_state_ok in H. simpl in H. injection H as <- <-.
      match type of Hsave with
      | save_interview_report _ ?fin _ _ = _ => set (finished := fin) in *
      end.
      destruct (forallb is_plain (evaluations finished)) eqn:Hplain.
      * destruct (PgFault_eq_dec (pg_fault sub) FaultAtGetconn) as [Hf|Hf].
        -- split; [right; exact Hf|]. simpl.
           destruct (save_interview_report_table _ _ _ _ _ Hsave)
             as [->|(Hno & _)]; [reflexivity | congruence].
        -- rewrite (save_interview_report_with_questions _ finished _ _ Hne Hplain Hf)
             in Hsave. discriminate.
      * rewrite (save_interview_report_with_model _ finished _ _ Hplain) in Hsave.
        discriminate.
    + destruct (save_interview_report _ _ _ _) as [r|] eqn:Hsave; simpl in H;
        [|discriminate].
      rewrite save_session_state_ok in H. simpl in H. injection H as <- <-.
      split; [left; reflexivity|]. simpl.
      unfold save_interview_report in Hsave. congruence.
  - rewrite save_session_state_ok in H. simpl in H. injection H as <- <-.
    simpl in Hafter. congruence.
Qed.

Lemma finishing_submit_writes_no_report_witness :
  (pg_pool fresh_world = None \/ pg_fault first_submission = FaultAtGetconn)
  /\ pg_pool finished_world = pg_pool fresh_world.
Proof.
  apply (finishing_submit_writes_no_report s1 started_single first_submission
           fresh_world finished_state finished_world).
  - vm_compute. reflexivity.
  - reflexivity.
  - reflexivity.
Defined.

End ReportFurther.

(** ** Further properties: what blocks a task *)

Section Blocked.

Local Arguments save_session_state : simpl never.
Local Arguments save_interview_report : simpl never.

Lemma DataFrame_new_ragged t :
  same_lengths t = false -> DataFrame_new t = Raise ValueError.
Proof. unfold DataFrame_new. intros ->. reflexivity. Qed.

Lemma DataFrame_new_even t :
  same_lengths t = true -> exists df, DataFrame_new t = Ok df.
Proof. unfold DataFrame_new. intros ->. eauto. Qed.

(** X11: the catalog does not check that tables are rectangular.  A task
    whose starting or solution table has columns of different lengths is
    accepted by [Question] and by [load_questions], but it cannot be
    submitted: [interview_screen] raises [ValueError] on it.  When it is
    the starting table that is ragged, the task cannot be drawn either:
    [interview_view] raises [ValueError]. *)
Theorem ragged_task_is_loaded_but_blocks q :
  same_lengths (starting_data q) = false
  \/ same_lengths (solution_data q) = false ->
  load_questions (Document (JList [Question_model_dump q])) = Ok [q]
  /\ (forall sm st sub w,
        getitem (questions st) (current_question_index st) = Ok q ->
        interview_screen sm st sub w = Raise ValueError)
  /\ (forall st,
        getitem (questions st) (current_question_index st) = Ok q ->
        same_lengths (starting_data q) = false ->
        interview_view st = Raise ValueError).
Proof.
  intros Hragged. split; [exact (catalog_round_trip [q])|]. split.
  - intros sm st sub w Hq. unfold interview_screen. rewrite Hq. simpl.
    unfold get_starting_df, get_solution_df.
    destruct (same_lengths (starting_data q)) eqn:Hstart.
    + destruct Hragged as [Hs|Hs]; [discriminate|].
      destruct (DataFrame_new_even _ Hstart) as [df ->]. simpl.
      rewrite (DataFrame_new_ragged _ Hs). reflexivity.
    + rewrite (DataFrame_new_ragged _ Hstart). reflexivity.
  - intros st Hq Hstart. unfold interview_view. rewrite Hq. simpl.
    unfold get_starting_df. rewrite (DataFrame_new_ragged _ Hstart). reflexivity.
Qed.

Lemma ragged_task_is_loaded_but_blocks_witness :
  load_questions (Document (JList [Question_model_dump ragged_question]))
  = Ok [ragged_question]
  /\ (forall sm st sub w,
        getitem (questions st) (current_question_index st) = Ok ragged_question ->
        interview_screen sm st sub w = Raise ValueError)
  /\ (forall st,
        getitem (questions st) (current_question_index st) = Ok ragged_question ->
        same_lengths (starting_data ragged_question) = false ->
        interview_view st = Raise ValueError).
Proof.
  apply (ragged_task_is_loaded_but_blocks ragged_question).
  left. reflexivity.
Defined.



(** X13: an answer of the model that lacks one of the three fields is
    replaced by the sentinel. *)
Theorem incomplete_answer_gives_sentinel c q f d :
  c (chain_input_of q f) = Ok (JDict d) ->
  dict_get "score" d = None \/ dict_get "is_correct" d = None
  \/ dict_get "feedback" d = None ->
  evaluate_formula (mkExcelAgent (Some c)) q f = Some error_evaluation.
Proof.
  intros Hc Hmissing.
  apply (evaluate_formula_on_invalid c q f (JDict d) ValidationError Hc).
  simpl. unfold Evaluation_validate.
  destruct Hmissing as [Hm | [Hm | Hm]]; rewrite Hm; simpl.
  - reflexivity.
  - destruct (dict_get "score" d ≫= validate_score); reflexivity.
  - destruct (dict_get "score" d ≫= validate_score);
      destruct (dict_get "is_correct" d ≫= validate_bool); reflexivity.
Qed.

Lemma incomplete_answer_gives_sentinel_witness :
  evaluate_formula (answering answer_without_feedback) sum_question "=SUM(A1:A3)"
  = Some error_evaluation.
Proof.
  apply (incomplete_answer_gives_sentinel
           (fun _ => Ok answer_without_feedback) sum_question "=SUM(A1:A3)"
           [ ("score", JInt 5); ("is_correct", JBool true) ]).
  - reflexivity.
  - right. right. reflexivity.
Defined.

End Blocked.

(** ** Further properties: the screens and the state check *)

Section ScreensFurther.

Lemma get_session_state_inv sm r st :
  get_session_state sm r = Ok (Some st) ->
  exists entry, r !! session_key sm = Some entry
                /\ _deserialize_data (value entry) = Ok st.
Proof.
  unfold get_session_state.
  destruct (r !! session_key sm) as [entry|]; [|discriminate].
  destruct (_deserialize_data (value entry)) as [st0|] eqn:Hde; simpl;
    [|discriminate].
  intros [= <-]. exists entry. split; [reflexivity | exact Hde].
Qed.

(** X14: the report of a stored session cannot be drawn.  A finished
    session dict read from the store with at least one evaluation holds
    its evaluations as models, on which [e['score']] raises [TypeError]:
    [main] fails instead of showing the performance report. *)
Theorem stored_report_cannot_be_drawn sid w st :
  get_session_state (SessionManager_new sid) (redis w) = Ok (Some st) ->
  interview_finished st = true ->
  evaluations st <> [] ->
  final_report_screen st = Fails (Python TypeError)
  /\ main_view sid w = Fails (Python TypeError).
Proof.
  intros Hget Hfin Hne.
  assert (Hreport : final_report_screen st = Fails (Python TypeError)).
  { destruct (get_session_state_inv _ _ _ Hget) as (entry & _ & Hde).
    destruct (deserialize_inv _ _ Hde) as (evs & Hev & _).
    unfold final_report_screen. rewrite Hev in *.
    destruct evs as [|e evs]; [exfalso; apply Hne; reflexivity|]. reflexivity. }
  split; [exact Hreport|].
  unfold main_view. rewrite Hget, Hfin, Hreport. reflexivity.
Qed.

Lemma stored_report_cannot_be_drawn_witness :
  final_report_screen finished_reloaded = Fails (Python TypeError)
  /\ main_view "s1" finished_world = Fails (Python TypeError).
Proof.
  apply (stored_report_cannot_be_drawn "s1" finished_world finished_reloaded).
  - vm_compute. reflexivity.
  - reflexivity.
  - discriminate.
Defined.







End ScreensFurther.

Section StateCheckFurther.

Local Arguments save_session_state : simpl never.
Local Arguments save_interview_report : simpl never.








(** X17: a submit on a task that is not the last always advances the
    session when the agent has a chain and the task's tables have
    columns of equal length: whatever the chain does, an evaluation is
    appended, the index grows by one, the dict is stored and the report
    table is left alone. *)
Theorem submit_advances sm st sub w q c :
  chain (excel_agent sub) = Some c ->
  getitem (questions st) (current_question_index st) = Ok q ->
  same_lengths (starting_data q) = true ->
  same_lengths (solution_data q) = true ->
  current_question_index st + 1 < Z.of_nat (length (questions st)) ->
  exists st' e,
    interview_screen sm st sub w
    = Ok (st', with_redis w
                 (<[session_key sm := mkRedisEntry (session_document st') 86400]>
                    (redis w)))
    /\ score_in_range e
    /\ current_question_index st' = current_question_index st + 1
    /\ evaluations st' = evaluations st ++ [PlainDict e]
    /\ interview_finished st' = interview_finished st.
Proof.
  intros Hchain Hq Hstart Hsol Hlast.
  destruct (evaluate_formula (excel_agent sub) q (formula sub)) as [e|] eqn:He.
  2: { unfold evaluate_formula in He. rewrite Hchain in He.
       destruct (invoke_chain c q (formula sub)); discriminate. }
  destruct (DataFrame_new_even _ Hstart) as [df Hdf].
  destruct (DataFrame_new_even _ Hsol) as [sol Hsoldf].
  eexists _, e. split; [|split; [exact (evaluate_formula_in_range _ _ _ _ He)|]].
  - unfold interview_screen. rewrite Hq. simpl.
    unfold get_starting_df, get_solution_df. rewrite Hdf, Hsoldf. simpl.
    rewrite He. simpl.
    destruct (Z.of_nat (length (questions st)) <=? current_question_index st + 1)
      eqn:Hcmp; [apply Z.leb_le in Hcmp; lia|].
    rewrite save_session_state_ok. reflexivity.
  - simpl. auto.
Qed.

Lemma submit_advances_witness :
  exists st' e,
    interview_screen s1 (started_state "s1" catalog t_start) first_submission
                     fresh_world
    = Ok (st', with_redis fresh_world
                 (<[session_key s1 := mkRedisEntry (session_document st') 86400]>
                    (redis fresh_world)))
    /\ score_in_range e
    /\ current_question_index st'
       = current_question_index (started_state "s1" catalog t_start) + 1
    /\ evaluations st'
       = evaluations (started_state "s1" catalog t_start) ++ [PlainDict e]
    /\ interview_finished st'
       = interview_finished (started_state "s1" catalog t_start).
Proof.
  apply (submit_advances s1 (started_state "s1" catalog t_start) first_submission
           fresh_world sum_question (fun _ => Ok (model_answer 4)));
    reflexivity.
Defined.

End StateCheckFurther.
